(** * MCM visualization tool: resource paths, window construction and
      the two canvas actions of [main.py].

    The program is a PySide6 window with a sidebar of two buttons and an
    embedded PyVista canvas.  Its own code is straight-line: it resolves an
    icon path, builds the widgets, and each button handler issues a fixed
    sequence of calls on the plotter.  The development embeds

    - [os.path] as used by [get_resource_path] (POSIX flavour),
    - the process state the program reads and writes (packaging marker,
      entry script, file system, console, ordered trace of toolkit calls),
    - the window object and its handlers as state-passing functions,
    - the canvas scene the plotter calls act on. *)

From Stdlib Require Import String Ascii List Bool Arith ZArith QArith Lia.
Import ListNotations.

Local Open Scope list_scope.
Local Open Scope string_scope.

(* ================================================================== *)
(** ** Python string primitives used by [posixpath] *)
(* ================================================================== *)

Module PyStr.

(** [s.startswith(c)] for a one-character [c]. *)
Definition startswith (c : ascii) (s : string) : bool :=
  match s with
  | EmptyString => false
  | String x _ => Ascii.eqb x c
  end.

(** [s.endswith(c)] for a one-character [c]. *)
Fixpoint endswith (c : ascii) (s : string) : bool :=
  match s with
  | EmptyString => false
  | String x EmptyString => Ascii.eqb x c
  | String _ t => endswith c t
  end.

(** [bool(s)]: a string is truthy when it is not empty. *)
Definition truthy (s : string) : bool :=
  match s with
  | EmptyString => false
  | String _ _ => true
  end.

(** [c in s]. *)
Fixpoint contains (c : ascii) (s : string) : bool :=
  match s with
  | EmptyString => false
  | String x t => Ascii.eqb x c || contains c t
  end.

(** [s[: s.rfind(c) + 1]]: everything up to and including the last [c];
    empty when [c] does not occur ([rfind] gives [-1]). *)
Fixpoint upto_last (c : ascii) (s : string) : string :=
  match s with
  | EmptyString => EmptyString
  | String x t =>
      if contains c (String x t) then String x (upto_last c t)
      else EmptyString
  end.

(** [s == c * len(s)]: every character is [c]. *)
Fixpoint all_are (c : ascii) (s : string) : bool :=
  match s with
  | EmptyString => true
  | String x t => Ascii.eqb x c && all_are c t
  end.

(** [s.rstrip(c)]. *)
Fixpoint rstrip (c : ascii) (s : string) : string :=
  match s with
  | EmptyString => EmptyString
  | String x t => if all_are c (String x t) then EmptyString
                  else String x (rstrip c t)
  end.

(** [s.split(c)]: never empty, [("").split(c) = [""]]. *)
Fixpoint split (c : ascii) (s : string) : list string :=
  match s with
  | EmptyString => [EmptyString]
  | String x t =>
      if Ascii.eqb x c then EmptyString :: split c t
      else match split c t with
           | h :: r => String x h :: r
           | [] => [String x EmptyString]
           end
  end.

(** [c.join(parts)]. *)
Fixpoint join_with (c : ascii) (parts : list string) : string :=
  match parts with
  | [] => EmptyString
  | [p] => p
  | p :: rest => p ++ String c (join_with c rest)
  end.

(** [c * n]. *)
Fixpoint repeat_char (c : ascii) (n : nat) : string :=
  match n with
  | O => EmptyString
  | S k => String c (repeat_char c k)
  end.

End PyStr.

(* ================================================================== *)
(** ** [os.path], POSIX implementation ([posixpath])

    [os.path] is a platform-selected module; the functions below follow
    [posixpath], whose separator is ["/"]. *)
(* ================================================================== *)

Module posixpath.

Definition sep : ascii := "/"%char.
Definition dot : string := ".".
Definition dotdot : string := "..".

(** [isabs(s)]: [s.startswith(sep)]. *)
Definition isabs (s : string) : bool := PyStr.startswith sep s.

(** One round of the loop of [join(a, *p)]:
<<
    if b.startswith(sep):              path = b
    elif not path or path.endswith(sep): path += b
    else:                              path += sep + b
>> *)
Definition join_step (path b : string) : string :=
  if PyStr.startswith sep b then b
  else if negb (PyStr.truthy path) || PyStr.endswith sep path then path ++ b
  else path ++ String sep b.

(** [join(a, *p)]. *)
Definition join (a : string) (p : list string) : string :=
  fold_left join_step p a.

(** [dirname(p)]:
<<
    i = p.rfind(sep) + 1
    head = p[:i]
    if head and head != sep*len(head):
        head = head.rstrip(sep)
    return head
>> *)
Definition dirname (p : string) : string :=
  let head := PyStr.upto_last sep p in
  if PyStr.truthy head && negb (PyStr.all_are sep head)
  then PyStr.rstrip sep head
  else head.

(** The number [normpath] keeps in [initial_slashes]: 0 for a relative
    path, 2 for exactly two leading slashes, 1 otherwise. *)
Definition initial_slashes (path : string) : nat :=
  match path with
  | String a (String b (String c _)) =>
      if Ascii.eqb a sep
      then if Ascii.eqb b sep && negb (Ascii.eqb c sep) then 2 else 1
      else 0
  | String a (String b EmptyString) =>
      if Ascii.eqb a sep then if Ascii.eqb b sep then 2 else 1 else 0
  | String a EmptyString => if Ascii.eqb a sep then 1 else 0
  | EmptyString => 0
  end.

(** The body of the loop over the components in [normpath]; [new_comps]
    is kept with its last element first, so [append] is a cons and [pop]
    a tail. *)
Definition norm_step (slashes : nat) (new_comps : list string)
    (comp : string) : list string :=
  if String.eqb comp EmptyString || String.eqb comp dot then new_comps
  else if negb (String.eqb comp dotdot)
          || (Nat.eqb slashes 0 && match new_comps with [] => true | _ => false end)
          || match new_comps with
             | last :: _ => String.eqb last dotdot
             | [] => false
             end
  then comp :: new_comps
  else match new_comps with
       | _ :: rest => rest
       | [] => []
       end.

(** [normpath(path)]. *)
Definition normpath (path : string) : string :=
  if negb (PyStr.truthy path) then dot
  else
    let slashes := initial_slashes path in
    let comps := rev (fold_left (norm_step slashes) (PyStr.split sep path) []) in
    let joined := PyStr.join_with sep comps in
    let path' := PyStr.repeat_char sep slashes ++ joined in
    if PyStr.truthy path' then path' else dot.

(** [abspath(path)], with [os.getcwd()] passed in. *)
Definition abspath (cwd path : string) : string :=
  normpath (if isabs path then path else join cwd [path]).

End posixpath.

(* ================================================================== *)
(** ** The canvas: PyVista meshes, actors and plotter calls *)
(* ================================================================== *)

(** [pv.Sphere(radius=r)]; every other argument keeps its default. *)
Inductive mesh : Type :=
| Sphere (radius : Q).

(** What [add_mesh(mesh, color=, show_edges=, pbr=, opacity=)] puts in the
    scene. *)
Record mesh_actor : Type := {
  actor_mesh : mesh;
  actor_color : string;
  actor_show_edges : bool;
  actor_pbr : bool;
  actor_opacity : Q
}.

(** What [add_text(text, position=, color=)] puts in the scene. *)
Record text_actor : Type := {
  text_content : string;
  text_position : string;
  text_color : string
}.

(** The methods of [self.plotter] that [main.py] calls. *)
Inductive plotter_call : Type :=
| set_background (color : string)
| add_axes
| add_text (t : text_actor)
| clear
| add_mesh (a : mesh_actor)
| reset_camera
| close.

(** The camera either still has the view the canvas was created with, or
    was last reset to frame some content.  The viewing direction, which
    the user turns with the mouse and no call of the program sets, is not
    part of the state. *)
Inductive camera_state : Type :=
| InitialView
| Framing (content : list mesh_actor).

(** The scene state owned by the embedded canvas. *)
Record Plotter : Type := {
  meshes : list mesh_actor;
  texts : list text_actor;
  axes : bool;
  background : option string;   (* [None]: the theme's default *)
  camera : camera_state;
  closed : bool
}.

(** [QtInteractor(self)]: a canvas with nothing in it. *)
Definition QtInteractor : Plotter :=
  {| meshes := []; texts := []; axes := false; background := None;
     camera := InitialView; closed := false |}.

(** Modelled from the spec: the effect of each plotter call on the scene.
    The plotting library is not part of the repository; the scene is, in
    the spec's words, the displayed mesh objects, the camera, the
    background colour and the axis indicator, together with the status
    text.  [clear] removes all scene content (meshes, text, axis
    indicator) and nothing else; [set_background] sets the colour;
    [add_axes], [add_text] and [add_mesh] add what they name;
    [reset_camera] frames the content then in the scene; [close]
    releases the canvas. *)
Definition plotter_exec (c : plotter_call) (p : Plotter) : Plotter :=
  match c with
  | set_background color =>
      {| meshes := meshes p; texts := texts p; axes := axes p;
         background := Some color; camera := camera p; closed := closed p |}
  | add_axes =>
      {| meshes := meshes p; texts := texts p; axes := true;
         background := background p; camera := camera p; closed := closed p |}
  | add_text t =>
      {| meshes := meshes p; texts := texts p ++ [t]; axes := axes p;
         background := background p; camera := camera p; closed := closed p |}
  | clear =>
      {| meshes := []; texts := []; axes := false;
         background := background p; camera := camera p; closed := closed p |}
  | add_mesh a =>
      {| meshes := meshes p ++ [a]; texts := texts p; axes := axes p;
         background := background p; camera := camera p; closed := closed p |}
  | reset_camera =>
      {| meshes := meshes p; texts := texts p; axes := axes p;
         background := background p; camera := Framing (meshes p);
         closed := closed p |}
  | close =>
      {| meshes := meshes p; texts := texts p; axes := axes p;
         background := background p; camera := camera p; closed := true |}
  end.

(* ================================================================== *)
(** ** The process: what the program reads, prints and calls *)
(* ================================================================== *)

(** What the program does to the outside, in the order it does it. *)
Inductive event : Type :=
| Printed (line : string)                 (* [print(line)] *)
| Stat (path : string) (found : bool)     (* [os.path.exists(path)] *)
| AppIconSet (path : string)              (* [app.setWindowIcon(QIcon(path))] *)
| WindowIconSet (path : string)           (* [self.setWindowIcon(QIcon(path))] *)
| PlotterCall (c : plotter_call)          (* [self.plotter.c(...)] *)
| Accepted.                               (* [event.accept()] *)

Record world : Type := {
  sys_MEIPASS : option string;   (* [None]: [sys] has no [_MEIPASS] *)
  script_file : string;          (* [__file__] of [main.py] *)
  getcwd : string;               (* [os.getcwd()] *)
  path_exists : string -> bool;  (* the file system, as [os.path.exists] *)
  trace : list event
}.

(** State passing over the process. *)
Definition M (A : Type) : Type := world -> A * world.

Definition ret {A : Type} (a : A) : M A := fun w => (a, w).

Definition bind {A B : Type} (c : M A) (k : A -> M B) : M B :=
  fun w => let (a, w') := c w in k a w'.

Declare Scope proc_scope.
Delimit Scope proc_scope with proc.
Notation "x <- c ;; k" := (bind c (fun x => k))
  (at level 61, c at next level, right associativity) : proc_scope.
Notation "c ;; k" := (bind c (fun _ => k))
  (at level 61, right associativity) : proc_scope.
Local Open Scope proc_scope.

(** Reading a field of the process. *)
Definition read {A : Type} (f : world -> A) : M A := fun w => (f w, w).

(** The process after some more events. *)
Definition logged (w : world) (events : list event) : world :=
  {| sys_MEIPASS := sys_MEIPASS w; script_file := script_file w;
     getcwd := getcwd w; path_exists := path_exists w;
     trace := trace w ++ events |}.

(** Appending one event to the trace. *)
Definition emit (e : event) : M unit := fun w => (tt, logged w [e]).

Definition print (line : string) : M unit := emit (Printed line).

Definition os_path_exists (path : string) : M bool :=
  found <- read (fun w => path_exists w path) ;;
  emit (Stat path found) ;;
  ret found.

(* ================================================================== *)
(** ** Resource path helper *)
(* ================================================================== *)

(** [get_resource_path(relative_path)]:
<<
    if hasattr(sys, '_MEIPASS'):
        base_path = sys._MEIPASS
    else:
        base_path = os.path.dirname(os.path.abspath(__file__))
    return os.path.join(base_path, relative_path)
>> *)
Definition get_resource_path (relative_path : string) : M string :=
  marker <- read sys_MEIPASS ;;
  base_path <- match marker with
               | Some meipass => ret meipass
               | None =>
                   file <- read script_file ;;
                   cwd <- read getcwd ;;
                   ret (posixpath.dirname (posixpath.abspath cwd file))
               end ;;
  ret (posixpath.join base_path [relative_path]).

(** The base directory of a process, in the words of the spec: the
    packaging tool's extraction directory when the marker is there, the
    directory that holds the entry script otherwise. *)
Definition base_dir (w : world) : string :=
  match sys_MEIPASS w with
  | Some meipass => meipass
  | None => posixpath.dirname (posixpath.abspath (getcwd w) (script_file w))
  end.

(** [os.path.join("resources", "icon.ico")], the argument of both icon
    look-ups. *)
Definition icon_relative_path : string :=
  posixpath.join "resources" ["icon.ico"].

(* ================================================================== *)
(** ** Qt objects *)
(* ================================================================== *)

(** The two methods of the window that buttons are connected to. *)
Inductive slot : Type :=
| slot_plot_sphere     (* [self.plot_sphere] *)
| slot_clear_plot.     (* [self.clear_plot] *)

(** The widgets [init_ui] puts in the sidebar's vertical layout. *)
Inductive sidebar_item : Type :=
| QLabel (text : string) (centered : bool)
| QPushButton (text : string) (fixedHeight : Z) (clicked : slot)
| Stretch.

(** [self.sidebar]: a styled-panel [QFrame] of fixed width. *)
Record QFrame : Type := {
  fixedWidth : Z;
  layout : list sidebar_item
}.

(** The part of [QMainWindow] the program sets. *)
Record QMainWindow : Type := {
  windowTitle : string;
  size : Z * Z;                  (* width, height *)
  windowIcon : option string;    (* the file the icon was loaded from *)
  visible : bool
}.

(** [MainWindow]: the Qt window with the two attributes [init_ui] adds. *)
Record MainWindow : Type := {
  qt : QMainWindow;
  sidebar : QFrame;
  plotter : Plotter
}.

(** [QApplication]: the part the program sets. *)
Record QApplication : Type := {
  style : option string;
  app_windowIcon : option string
}.

(** [QCloseEvent]. *)
Record QCloseEvent : Type := {
  isAccepted : bool
}.

(** [super().__init__()]: an untitled, hidden window of Qt's default
    size, without an icon. *)
Definition QMainWindow_new : QMainWindow :=
  {| windowTitle := ""; size := (640, 480)%Z; windowIcon := None;
     visible := false |}.

Definition setWindowTitle (title : string) (q : QMainWindow) : QMainWindow :=
  {| windowTitle := title; size := size q; windowIcon := windowIcon q;
     visible := visible q |}.

Definition resize (width height : Z) (q : QMainWindow) : QMainWindow :=
  {| windowTitle := windowTitle q; size := (width, height);
     windowIcon := windowIcon q; visible := visible q |}.

Definition setWindowIcon (path : string) (q : QMainWindow) : M QMainWindow :=
  emit (WindowIconSet path) ;;
  ret {| windowTitle := windowTitle q; size := size q;
         windowIcon := Some path; visible := visible q |}.

Definition show (self : MainWindow) : MainWindow :=
  {| qt := {| windowTitle := windowTitle (qt self); size := size (qt self);
              windowIcon := windowIcon (qt self); visible := true |};
     sidebar := sidebar self; plotter := plotter self |}.

Definition QApplication_new : QApplication :=
  {| style := None; app_windowIcon := None |}.

Definition setStyle (name : string) (app : QApplication) : QApplication :=
  {| style := Some name; app_windowIcon := app_windowIcon app |}.

Definition app_setWindowIcon (path : string) (app : QApplication)
  : M QApplication :=
  emit (AppIconSet path) ;;
  ret {| style := style app; app_windowIcon := Some path |}.

(** [event.accept()]. *)
Definition accept (ev : QCloseEvent) : M QCloseEvent :=
  emit Accepted ;;
  ret {| isAccepted := true |}.

(** [self.plotter.c(...)]: the call is made on the canvas and recorded. *)
Definition call (c : plotter_call) (self : MainWindow) : M MainWindow :=
  emit (PlotterCall c) ;;
  ret {| qt := qt self; sidebar := sidebar self;
         plotter := plotter_exec c (plotter self) |}.

(* ================================================================== *)
(** ** The main window *)
(* ================================================================== *)

Definition newline : string := String (ascii_of_nat 10) EmptyString.

(** [init_ui(self)]: the sidebar, then the canvas with its background,
    axes and placeholder text. *)
Definition init_ui (q : QMainWindow) : M MainWindow :=
  let title_label := QLabel "<h2>工具箱</h2>" true in
  let btn_sphere := QPushButton "🌍 绘制 3D 球体" 40 slot_plot_sphere in
  let btn_clear := QPushButton "🗑️ 清空画布" 40 slot_clear_plot in
  let credits := QLabel ("MCM 2026 Toolbox" ++ newline ++ "v1.0.0 Build") false in
  let self :=
    {| qt := q;
       sidebar := {| fixedWidth := 250;
                     layout := [title_label; btn_sphere; btn_clear; Stretch;
                                credits] |};
       plotter := QtInteractor |} in
  self <- call (set_background "white") self ;;
  self <- call add_axes self ;;
  call (add_text {| text_content := "Ready for Data...";
                    text_position := "upper_left";
                    text_color := "black" |}) self.

(** The icon block of [MainWindow.__init__]:
<<
    icon_path = get_resource_path(os.path.join("resources", "icon.ico"))
    if os.path.exists(icon_path):
        self.setWindowIcon(QIcon(icon_path))
    else:
        print(f"⚠️ Warning: Icon not found at {icon_path}")
>> *)
Definition window_icon_block (q : QMainWindow) : M QMainWindow :=
  icon_path <- get_resource_path (posixpath.join "resources" ["icon.ico"]) ;;
  found <- os_path_exists icon_path ;;
  if found then setWindowIcon icon_path q
  else print ("⚠️ Warning: Icon not found at " ++ icon_path) ;; ret q.

(** [MainWindow.__init__(self)]. *)
Definition MainWindow_init : M MainWindow :=
  let q := QMainWindow_new in
  let q := setWindowTitle
             "MCM Visualization Tool (Powered by PySide6 & PyVista)" q in
  let q := resize 1200 800 q in
  q <- window_icon_block q ;;
  init_ui q.

(** [plot_sphere(self)]. *)
Definition plot_sphere (self : MainWindow) : M MainWindow :=
  self <- call clear self ;;
  self <- call add_axes self ;;
  let sphere := Sphere 0.5 in
  self <- call (add_mesh {| actor_mesh := sphere; actor_color := "orange";
                            actor_show_edges := true; actor_pbr := false;
                            actor_opacity := 0.8 |}) self ;;
  self <- call (add_text {| text_content := "Model: 3D Sphere";
                            text_position := "upper_left";
                            text_color := "black" |}) self ;;
  self <- call reset_camera self ;;
  print "✅ 成功绘制球体" ;;
  ret self.

(** [clear_plot(self)]. *)
Definition clear_plot (self : MainWindow) : M MainWindow :=
  self <- call clear self ;;
  self <- call (set_background "white") self ;;
  self <- call add_axes self ;;
  print "🧹 画布已清空" ;;
  ret self.

(** [closeEvent(self, event)]. *)
Definition closeEvent (self : MainWindow) (ev : QCloseEvent)
  : M (MainWindow * QCloseEvent) :=
  self <- call close self ;;
  ev <- accept ev ;;
  ret (self, ev).

(* ================================================================== *)
(** ** Program entry and event dispatch *)
(* ================================================================== *)

(** The icon block of [__main__]:
<<
    app_icon_path = get_resource_path(os.path.join("resources", "icon.ico"))
    if os.path.exists(app_icon_path):
        app.setWindowIcon(QIcon(app_icon_path))
>> *)
Definition app_icon_block (app : QApplication) : M QApplication :=
  app_icon_path <- get_resource_path (posixpath.join "resources" ["icon.ico"]) ;;
  found <- os_path_exists app_icon_path ;;
  if found then app_setWindowIcon app_icon_path app else ret app.

(** The [__main__] block up to [window.show()]; the event loop that
    follows belongs to the toolkit. *)
Definition main : M (QApplication * MainWindow) :=
  let app := QApplication_new in
  let app := setStyle "Fusion" app in
  app <- app_icon_block app ;;
  window <- MainWindow_init ;;
  let window := show window in
  ret (app, window).

(** Running the method a button's [clicked] signal is connected to. *)
Definition run_slot (s : slot) (self : MainWindow) : M MainWindow :=
  match s with
  | slot_plot_sphere => plot_sphere self
  | slot_clear_plot => clear_plot self
  end.

(** A sequence of button clicks, handled one after the other: each
    callback runs to completion before the next one starts. *)
Fixpoint run_clicks (clicks : list slot) (self : MainWindow) : M MainWindow :=
  match clicks with
  | [] => ret self
  | s :: rest => self <- run_slot s self ;; run_clicks rest self
  end.

(* ================================================================== *)
(** ** Vocabulary of the properties *)
(* ================================================================== *)

(** The actor [plot_sphere] adds: a sphere of radius 0.5, orange, with
    mesh edges, opacity 0.8. *)
Definition sphere_actor : mesh_actor :=
  {| actor_mesh := Sphere 0.5; actor_color := "orange";
     actor_show_edges := true; actor_pbr := false; actor_opacity := 0.8 |}.

(** The status text [plot_sphere] shows. *)
Definition sphere_text : text_actor :=
  {| text_content := "Model: 3D Sphere"; text_position := "upper_left";
     text_color := "black" |}.

(** The placeholder text of a freshly built window. *)
Definition ready_text : text_actor :=
  {| text_content := "Ready for Data..."; text_position := "upper_left";
     text_color := "black" |}.

(** Two process states belong to one run when the packaging marker, the
    entry script and the working directory agree. *)
Definition same_process (w1 w2 : world) : Prop :=
  sys_MEIPASS w1 = sys_MEIPASS w2
  /\ script_file w1 = script_file w2
  /\ getcwd w1 = getcwd w2.

(** The paths asked of the file system, oldest first. *)
Fixpoint stat_paths (events : list event) : list string :=
  match events with
  | [] => []
  | Stat path _ :: rest => path :: stat_paths rest
  | _ :: rest => stat_paths rest
  end.

(** The start of the line printed for a missing icon. *)
Definition warning_prefix : string := "⚠️ Warning: Icon not found at ".

(** Whether a missing-icon warning is among the events. *)
Definition warned (events : list event) : bool :=
  existsb (fun e => match e with
                    | Printed line => prefix warning_prefix line
                    | _ => false
                    end) events.

(** A block warns when, started on an empty trace in a process whose icon
    file is missing, it leaves a warning in the trace. *)
Definition warns_when_icon_missing {A : Type} (block : M A) : Prop :=
  forall w : world,
    trace w = [] ->
    path_exists w (fst (get_resource_path icon_relative_path w)) = false ->
    warned (trace (snd (block w))) = true.

(** The events a run from process [w] to process [w'] has added. *)
Definition since (w w' : world) : list event :=
  skipn (length (trace w)) (trace w').

(** Whether an [add_text] call is among the events. *)
Definition adds_text (events : list event) : bool :=
  existsb (fun e => match e with
                    | PlotterCall (add_text _) => true
                    | _ => false
                    end) events.

(** How often the canvas is released among the events. *)
Fixpoint count_close (events : list event) : nat :=
  match events with
  | [] => 0
  | PlotterCall close :: rest => S (count_close rest)
  | _ :: rest => count_close rest
  end.

(** Whether a [set_background] call is among the events. *)
Definition sets_background (events : list event) : bool :=
  existsb (fun e => match e with
                    | PlotterCall (set_background _) => true
                    | _ => false
                    end) events.

(** The two states of the spec's scene machine. *)
Inductive scene_phase : Type :=
| Empty
| ShowingSphere.

(** The spec's machine: a click on "draw sphere" leads to [ShowingSphere],
    a click on "clear canvas" to [Empty], whatever the state before. *)
Definition toggle (ph : scene_phase) (click : slot) : scene_phase :=
  match click with
  | slot_plot_sphere => ShowingSphere
  | slot_clear_plot => Empty
  end.

(** The scene a phase stands for: no mesh, or exactly the one sphere. *)
Definition in_phase (ph : scene_phase) (p : Plotter) : Prop :=
  match ph with
  | Empty => meshes p = []
  | ShowingSphere => meshes p = [sphere_actor]
  end.

(** The most recent click of a sequence, if any. *)
Fixpoint last_click (previous : option slot) (clicks : list slot)
  : option slot :=
  match clicks with
  | [] => previous
  | c :: rest => last_click (Some c) rest
  end.

(** What the canvas shows after a given most recent click: the content
    that click's handler puts there, on a white background with the axis
    indicator; before any click, the placeholder of the fresh window. *)
Definition reflects (recent : option slot) (p : Plotter) : Prop :=
  axes p = true /\ background p = Some "white" /\
  match recent with
  | None => meshes p = [] /\ texts p = [ready_text]
  | Some slot_plot_sphere => meshes p = [sphere_actor] /\ texts p = [sphere_text]
  | Some slot_clear_plot => meshes p = [] /\ texts p = []
  end.

(** The window after [MainWindow()] and then the given clicks. *)
Definition window_after (clicks : list slot) (w : world) : MainWindow :=
  fst (run_clicks clicks (fst (MainWindow_init w)) (snd (MainWindow_init w))).

(** A packaged process and a process run from source, both without the
    icon file, and one with it. *)
Definition bundle_process : world :=
  {| sys_MEIPASS := Some "/tmp/_MEI40282"; script_file := "/tmp/_MEI40282/main.py";
     getcwd := "/home/user"; path_exists := fun _ => false; trace := [] |}.

Definition source_process : world :=
  {| sys_MEIPASS := None; script_file := "main.py";
     getcwd := "/home/user/MCM-Tools"; path_exists := fun _ => false;
     trace := [] |}.

Definition source_process_with_icon : world :=
  {| sys_MEIPASS := None; script_file := "main.py";
     getcwd := "/home/user/MCM-Tools";
     path_exists := String.eqb "/home/user/MCM-Tools/resources/icon.ico";
     trace := [] |}.

(* ================================================================== *)
(** ** Vocabulary of the further properties *)
(* ================================================================== *)

(** A process whose base directory is given absolutely: an absolute
    extraction directory when packaged; otherwise an absolute working
    directory (what [os.getcwd()] returns) or an absolute [__file__]. *)
Definition absolute_process (w : world) : Prop :=
  match sys_MEIPASS w with
  | Some meipass => posixpath.isabs meipass = true
  | None => posixpath.isabs (getcwd w) = true
            \/ posixpath.isabs (script_file w) = true
  end.

(** The slots the buttons of a sidebar are connected to, top to bottom. *)
Fixpoint connected_slots (items : list sidebar_item) : list slot :=
  match items with
  | [] => []
  | QPushButton _ _ s :: rest => s :: connected_slots rest
  | _ :: rest => connected_slots rest
  end.

Definition is_plot_sphere (s : slot) : bool :=
  match s with
  | slot_plot_sphere => true
  | slot_clear_plot => false
  end.

Definition is_clear_plot (s : slot) : bool :=
  match s with
  | slot_plot_sphere => false
  | slot_clear_plot => true
  end.

(** How many lines the events print. *)
Fixpoint count_printed (events : list event) : nat :=
  match events with
  | [] => 0
  | Printed _ :: rest => S (count_printed rest)
  | _ :: rest => count_printed rest
  end.

(** How many plotter calls the events hold. *)
Fixpoint count_plotter_calls (events : list event) : nat :=
  match events with
  | [] => 0
  | PlotterCall _ :: rest => S (count_plotter_calls rest)
  | _ :: rest => count_plotter_calls rest
  end.

(** Events that stay on the canvas and the console: a printed line, or a
    plotter call other than [close]. *)
Definition canvas_event (e : event) : bool :=
  match e with
  | Printed _ => true
  | PlotterCall close => false
  | PlotterCall _ => true
  | Stat _ _ | AppIconSet _ | WindowIconSet _ | Accepted => false
  end.

(** A process run from the file system root, and a window whose canvas
    an earlier session left dark, with the camera untouched. *)
Definition root_process : world :=
  {| sys_MEIPASS := None; script_file := "/main.py"; getcwd := "/";
     path_exists := fun _ => false; trace := [] |}.

Definition dark_window : MainWindow :=
  {| qt := QMainWindow_new;
     sidebar := {| fixedWidth := 250; layout := [] |};
     plotter := {| meshes := []; texts := []; axes := false;
                   background := Some "black"; camera := InitialView;
                   closed := false |} |}.

(* ================================================================== *)
(** ** Vocabulary of the base directory *)
(* ================================================================== *)

(** A path component: not empty, neither ["."] nor [".."], and without
    a separator in it. *)
Definition plain (c : string) : bool :=
  negb (String.eqb c "")
  && negb (String.eqb c ".")
  && negb (String.eqb c "..")
  && negb (existsb (fun x => Ascii.eqb x "/"%char) (list_ascii_of_string c)).

(** The absolute path with the given components: ["/c1/c2/.../cn"]. *)
Fixpoint path_of (comps : list string) : string :=
  match comps with
  | [] => ""
  | c :: rest => "/" ++ c ++ path_of rest
  end.

(** The directory with the given components; the root has none. *)
Definition directory (comps : list string) : string :=
  match comps with
  | [] => "/"
  | _ :: _ => path_of comps
  end.

(** A relative path joined onto a base directory, in the words of the
    spec: base and path with one separator between them, which an empty
    base or a base that already ends in one does without. *)
Definition joined_onto (base path : string) : string :=
  if Ascii.eqb (last (list_ascii_of_string base) "/"%char) "/"%char
  then base ++ path
  else base ++ "/" ++ path.

(** The base directory of a process, by run mode.  Packaged: the
    extraction directory the packaging tool left in [sys._MEIPASS].
    From source: the directory that holds the entry script, where
    [__file__] is either the script's absolute path or its path relative
    to the working directory. *)
Inductive base_of (w : world) : string -> Prop :=
| base_packaged (meipass : string) :
    sys_MEIPASS w = Some meipass ->
    base_of w meipass
| base_source_absolute (dirs : list string) (name : string) :
    sys_MEIPASS w = None ->
    forallb plain dirs = true ->
    plain name = true ->
    script_file w = path_of (dirs ++ [name]) ->
    base_of w (directory dirs)
| base_source_relative (dirs subdirs : list string) (name : string) :
    sys_MEIPASS w = None ->
    forallb plain dirs = true ->
    forallb plain subdirs = true ->
    plain name = true ->
    getcwd w = directory dirs ->
    script_file w = PyStr.join_with "/" (subdirs ++ [name]) ->
    base_of w (directory (dirs ++ subdirs)).

(** A process started as [python /opt/mcm/main.py]. *)
Definition installed_process : world :=
  {| sys_MEIPASS := None; script_file := "/opt/mcm/main.py";
     getcwd := "/home/user"; path_exists := fun _ => false; trace := [] |}.

(* ================================================================== *)
(** ** Path resolution *)
(* ================================================================== *)

Example join_icon :
  posixpath.join "resources" ["icon.ico"] = "resources/icon.ico".
Proof. reflexivity. Qed.

Example join_trailing_sep :
  posixpath.join "/tmp/_MEI42/" ["resources/icon.ico"]
  = "/tmp/_MEI42/resources/icon.ico".
Proof. reflexivity. Qed.

Example join_absolute_wins :
  posixpath.join "/opt/app" ["/etc/passwd"] = "/etc/passwd".
Proof. reflexivity. Qed.

Example dirname_script :
  posixpath.dirname "/home/u/app/main.py" = "/home/u/app".
Proof. reflexivity. Qed.

Example dirname_root : posixpath.dirname "/main.py" = "/".
Proof. reflexivity. Qed.

Example dirname_bare : posixpath.dirname "main.py" = "".
Proof. reflexivity. Qed.

Example abspath_relative_script :
  posixpath.abspath "/home/u/app" "./src/../main.py" = "/home/u/app/main.py".
Proof. reflexivity. Qed.

Example normpath_double_slash :
  posixpath.normpath "//a//b/./c/.." = "//a/b".
Proof. reflexivity. Qed.

Example normpath_triple_slash :
  posixpath.normpath "///a/../.." = "/".
Proof. reflexivity. Qed.

Example icon_path_in_bundle :
  fst (get_resource_path icon_relative_path bundle_process)
  = "/tmp/_MEI40282/resources/icon.ico".
Proof. reflexivity. Qed.

Example icon_path_from_source :
  fst (get_resource_path icon_relative_path source_process)
  = "/home/user/MCM-Tools/resources/icon.ico".
Proof. reflexivity. Qed.

Lemma prefix_app (s t : string) : prefix s (s ++ t) = true.
Proof.
  induction s as [|c s IH]; simpl.
  - destruct t; reflexivity.
  - destruct (ascii_dec c c) as [_|Hne]; [exact IH | now elim Hne].
Qed.

(** A relative second argument is appended to the first, with a separator
    in between unless the first is empty or already ends in one. *)
Lemma join_relative (base rel : string) :
  posixpath.isabs rel = false ->
  posixpath.join base [rel] = base ++ rel
  \/ posixpath.join base [rel] = base ++ "/" ++ rel.
Proof.
  intros Hrel. unfold posixpath.join, posixpath.join_step. simpl.
  unfold posixpath.isabs in Hrel. rewrite Hrel.
  destruct (negb (PyStr.truthy base) || PyStr.endswith posixpath.sep base);
    [left | right]; reflexivity.
Qed.

(** The value of [get_resource_path] is the join onto [base_dir]. *)
Lemma get_resource_path_value (rel : string) (w : world) :
  fst (get_resource_path rel w) = posixpath.join (base_dir w) [rel].
Proof.
  unfold get_resource_path, base_dir, bind, read, ret. simpl.
  destruct (sys_MEIPASS w); reflexivity.
Qed.

(** [get_resource_path] leaves the process as it found it. *)
Lemma get_resource_path_world (rel : string) (w : world) :
  snd (get_resource_path rel w) = w.
Proof.
  unfold get_resource_path, bind, read, ret. simpl.
  destruct (sys_MEIPASS w); reflexivity.
Qed.

Lemma get_resource_path_run (rel : string) (w : world) :
  get_resource_path rel w = (posixpath.join (base_dir w) [rel], w).
Proof.
  rewrite (surjective_pairing (get_resource_path rel w)).
  now rewrite get_resource_path_value, get_resource_path_world.
Qed.

(* ================================================================== *)
(** ** The process environment is only read *)
(* ================================================================== *)

Lemma same_process_refl (w : world) : same_process w w.
Proof. repeat split. Qed.

Lemma same_process_trans (w1 w2 w3 : world) :
  same_process w1 w2 -> same_process w2 w3 -> same_process w1 w3.
Proof.
  intros (A1 & A2 & A3) (B1 & B2 & B3).
  repeat split; congruence.
Qed.

Lemma same_process_base_dir (w1 w2 : world) :
  same_process w1 w2 -> base_dir w1 = base_dir w2.
Proof.
  intros (A1 & A2 & A3). unfold base_dir. now rewrite A1, A2, A3.
Qed.

Lemma plot_sphere_same_process (self : MainWindow) (w : world) :
  same_process w (snd (plot_sphere self w)).
Proof. repeat split. Qed.

Lemma clear_plot_same_process (self : MainWindow) (w : world) :
  same_process w (snd (clear_plot self w)).
Proof. repeat split. Qed.

Lemma run_slot_same_process (s : slot) (self : MainWindow) (w : world) :
  same_process w (snd (run_slot s self w)).
Proof.
  destruct s; [apply plot_sphere_same_process | apply clear_plot_same_process].
Qed.

Lemma run_clicks_same_process (clicks : list slot) :
  forall (self : MainWindow) (w : world),
    same_process w (snd (run_clicks clicks self w)).
Proof.
  induction clicks as [|c rest IH]; intros self w.
  - apply same_process_refl.
  - cbn [run_clicks]. unfold bind.
    pose proof (run_slot_same_process c self w) as Hc.
    destruct (run_slot c self w) as [self' w']. cbn [snd] in Hc.
    eapply same_process_trans; [exact Hc | apply IH].
Qed.

Lemma closeEvent_same_process (self : MainWindow) (ev : QCloseEvent) (w : world) :
  same_process w (snd (closeEvent self ev w)).
Proof. repeat split. Qed.

Lemma logged_logged (w : world) (l1 l2 : list event) :
  logged (logged w l1) l2 = logged w (l1 ++ l2).
Proof. unfold logged; simpl. now rewrite <- app_assoc. Qed.

Lemma since_logged (w : world) (l : list event) : since w (logged w l) = l.
Proof.
  unfold since, logged. cbn [trace].
  now rewrite skipn_app, skipn_all, Nat.sub_diag.
Qed.

(** Runs a straight-line handler and gathers what it logged. *)
Ltac run_handler :=
  unfold call, print, accept, setWindowIcon, app_setWindowIcon,
         bind, emit, ret;
  cbn [fst snd];
  rewrite ?logged_logged;
  reflexivity.

Lemma base_dir_logged (w : world) (l : list event) :
  base_dir (logged w l) = base_dir w.
Proof. reflexivity. Qed.

(** The path both icon blocks resolve. *)
Lemma icon_path_run (w : world) :
  get_resource_path (posixpath.join "resources" ["icon.ico"]) w
  = (posixpath.join (base_dir w) [icon_relative_path], w).
Proof. apply get_resource_path_run. Qed.

(** The run of the application-level icon block. *)
Lemma app_icon_block_run (app : QApplication) (w : world) :
  let p := posixpath.join (base_dir w) [icon_relative_path] in
  app_icon_block app w =
  if path_exists w p
  then ({| style := style app; app_windowIcon := Some p |},
        logged w [Stat p true; AppIconSet p])
  else (app, logged w [Stat p false]).
Proof.
  intros p. unfold app_icon_block, bind. rewrite icon_path_run. fold p.
  unfold os_path_exists, bind, read, emit, ret. cbn [fst snd].
  destruct (path_exists w p); run_handler.
Qed.

(** The run of the window-level icon block. *)
Lemma window_icon_block_run (q : QMainWindow) (w : world) :
  let p := posixpath.join (base_dir w) [icon_relative_path] in
  window_icon_block q w =
  if path_exists w p
  then ({| windowTitle := windowTitle q; size := size q;
           windowIcon := Some p; visible := visible q |},
        logged w [Stat p true; WindowIconSet p])
  else (q, logged w [Stat p false; Printed (warning_prefix ++ p)]).
Proof.
  intros p. unfold window_icon_block, bind. rewrite icon_path_run. fold p.
  unfold os_path_exists, bind, read, emit, ret. cbn [fst snd].
  destruct (path_exists w p); run_handler.
Qed.

(** The run of [init_ui]. *)
Lemma init_ui_run (q : QMainWindow) (w : world) :
  init_ui q w =
  ({| qt := q;
      sidebar := sidebar (fst (init_ui q w));
      plotter := {| meshes := []; texts := [ready_text]; axes := true;
                    background := Some "white"; camera := InitialView;
                    closed := false |} |},
   logged w [PlotterCall (set_background "white"); PlotterCall add_axes;
             PlotterCall (add_text ready_text)]).
Proof.
  unfold init_ui. run_handler.
Qed.

(** The run of [main], by whether the icon file is there. *)
Lemma main_run (w : world) :
  let p := posixpath.join (base_dir w) [icon_relative_path] in
  let found := path_exists w p in
  let icon := if found then Some p else None in
  main w =
  ({| style := Some "Fusion"; app_windowIcon := icon |},
   {| qt := {| windowTitle :=
                 "MCM Visualization Tool (Powered by PySide6 & PyVista)";
               size := (1200, 800)%Z; windowIcon := icon; visible := true |};
      sidebar := sidebar (fst (init_ui QMainWindow_new w));
      plotter := {| meshes := []; texts := [ready_text]; axes := true;
                    background := Some "white"; camera := InitialView;
                    closed := false |} |},
   logged w ((if found
              then [Stat p true; AppIconSet p; Stat p true; WindowIconSet p]
              else [Stat p false; Stat p false; Printed (warning_prefix ++ p)])
             ++ [PlotterCall (set_background "white"); PlotterCall add_axes;
                 PlotterCall (add_text ready_text)])).
Proof.
  intros p found icon. subst icon found.
  unfold main, MainWindow_init, bind.
  rewrite app_icon_block_run. cbv zeta. fold p.
  destruct (path_exists w p) eqn:Hp;
    rewrite window_icon_block_run; cbv zeta;
    rewrite base_dir_logged; fold p;
    change (path_exists (logged w ?l) p) with (path_exists w p);
    rewrite Hp, init_ui_run; unfold ret; cbn [fst snd show qt sidebar plotter
      windowTitle size windowIcon visible setWindowTitle resize QMainWindow_new
      QApplication_new setStyle style app_windowIcon];
    rewrite !logged_logged; reflexivity.
Qed.

Lemma main_same_process (w : world) : same_process w (snd (main w)).
Proof. pose proof (main_run w) as H. cbv zeta in H. rewrite H. repeat split. Qed.

Lemma stat_paths_app (l1 l2 : list event) :
  stat_paths (l1 ++ l2) = (stat_paths l1 ++ stat_paths l2)%list.
Proof.
  induction l1 as [|e l1 IH]; [reflexivity|].
  destruct e; simpl; now rewrite IH.
Qed.

(** C8. Resource-path resolution is pure and deterministic:
    [get_resource_path] leaves the process untouched; two calls with the
    same relative path in one run (same packaging marker, entry script and
    working directory) return the same path; the result is the join onto
    one base directory, which start-up, every sequence of clicks and the
    close handler leave as it was; and the two icon look-ups of [main] ask
    the file system for one and the same path. *)
Theorem get_resource_path_pure_deterministic
    (relative_path : string) (w1 w2 : world) :
  same_process w1 w2 ->
  snd (get_resource_path relative_path w1) = w1
  /\ fst (get_resource_path relative_path w1)
     = fst (get_resource_path relative_path w2)
  /\ fst (get_resource_path relative_path w1)
     = posixpath.join (base_dir w1) [relative_path]
  /\ base_dir (snd (main w1)) = base_dir w1
  /\ (forall clicks self, base_dir (snd (run_clicks clicks self w1)) = base_dir w1)
  /\ (forall self ev, base_dir (snd (closeEvent self ev w1)) = base_dir w1)
  /\ stat_paths (trace (snd (main w1)))
     = (stat_paths (trace w1)
        ++ [fst (get_resource_path icon_relative_path w1);
            fst (get_resource_path icon_relative_path w1)])%list.
Proof.
  intros Hsame.
  split; [apply get_resource_path_world|].
  split; [rewrite !get_resource_path_value;
          now rewrite (same_process_base_dir _ _ Hsame)|].
  split; [apply get_resource_path_value|].
  split; [symmetry; apply same_process_base_dir, main_same_process|].
  split; [intros; symmetry; apply same_process_base_dir, run_clicks_same_process|].
  split; [intros; symmetry; apply same_process_base_dir, closeEvent_same_process|].
  pose proof (main_run w1) as H. cbv zeta in H. rewrite H.
  cbn [snd trace logged].
  rewrite get_resource_path_value, !stat_paths_app.
  destruct (path_exists w1 _); reflexivity.
Qed.

Lemma get_resource_path_pure_deterministic_witness :
  same_process source_process source_process_with_icon
  /\ (let relative_path := icon_relative_path in
      let w1 := source_process in
      let w2 := source_process_with_icon in
      snd (get_resource_path relative_path w1) = w1
      /\ fst (get_resource_path relative_path w1)
         = fst (get_resource_path relative_path w2)
      /\ fst (get_resource_path relative_path w1)
         = posixpath.join (base_dir w1) [relative_path]
      /\ base_dir (snd (main w1)) = base_dir w1
      /\ (forall clicks self,
            base_dir (snd (run_clicks clicks self w1)) = base_dir w1)
      /\ (forall self ev, base_dir (snd (closeEvent self ev w1)) = base_dir w1)
      /\ stat_paths (trace (snd (main w1)))
         = (stat_paths (trace w1)
            ++ [fst (get_resource_path icon_relative_path w1);
                fst (get_resource_path icon_relative_path w1)])%list).
Proof.
  split.
  - repeat split.
  - apply (get_resource_path_pure_deterministic icon_relative_path
             source_process source_process_with_icon).
    repeat split.
Defined.

(* ================================================================== *)
(** ** The missing icon *)
(* ================================================================== *)

Example main_without_icon :
  trace (snd (main source_process))
  = [Stat "/home/user/MCM-Tools/resources/icon.ico" false;
     Stat "/home/user/MCM-Tools/resources/icon.ico" false;
     Printed "⚠️ Warning: Icon not found at /home/user/MCM-Tools/resources/icon.ico";
     PlotterCall (set_background "white"); PlotterCall add_axes;
     PlotterCall (add_text ready_text)].
Proof. reflexivity. Qed.

Example main_with_icon :
  trace (snd (main source_process_with_icon))
  = [Stat "/home/user/MCM-Tools/resources/icon.ico" true;
     AppIconSet "/home/user/MCM-Tools/resources/icon.ico";
     Stat "/home/user/MCM-Tools/resources/icon.ico" true;
     WindowIconSet "/home/user/MCM-Tools/resources/icon.ico";
     PlotterCall (set_background "white"); PlotterCall add_axes;
     PlotterCall (add_text ready_text)].
Proof. reflexivity. Qed.

(** The window-level block does warn about a missing icon. *)
Lemma window_icon_block_warns (q : QMainWindow) :
  warns_when_icon_missing (window_icon_block q).
Proof.
  intros w Hnil Hmiss. rewrite get_resource_path_value in Hmiss.
  pose proof (window_icon_block_run q w) as H. cbv zeta in H.
  rewrite H, Hmiss. cbn [snd logged trace]. rewrite Hnil.
  cbn [app]. unfold warned. cbn [existsb orb]. now rewrite prefix_app.
Qed.

(** C2, as stated, fails: with the icon file missing, the
    application-level block prints nothing, so it is not true that both
    icon assignments emit a warning. *)
Lemma app_icon_block_is_silent :
  ~ (warns_when_icon_missing (window_icon_block QMainWindow_new)
     /\ warns_when_icon_missing (app_icon_block QApplication_new)).
Proof.
  intros [_ Happ].
  specialize (Happ source_process eq_refl eq_refl).
  vm_compute in Happ. discriminate Happ.
Qed.

(** C2, amended. When the resolved icon path does not exist, start-up
    runs to the shown window without an icon at either level: the
    application and the window have no icon, the window is built with its
    canvas in the initial state, the application-level block only asks the
    file system, and the single warning of the run is printed by the
    window-level block. *)
Theorem missing_icon_continues_with_one_warning (w : world) :
  let p := fst (get_resource_path icon_relative_path w) in
  path_exists w p = false ->
  app_windowIcon (fst (fst (main w))) = None
  /\ windowIcon (qt (snd (fst (main w)))) = None
  /\ visible (qt (snd (fst (main w)))) = true
  /\ plotter (snd (fst (main w)))
     = {| meshes := []; texts := [ready_text]; axes := true;
          background := Some "white"; camera := InitialView; closed := false |}
  /\ (forall app, app_icon_block app w = (app, logged w [Stat p false]))
  /\ (forall q, window_icon_block q w
                = (q, logged w [Stat p false; Printed (warning_prefix ++ p)]))
  /\ trace (snd (main w))
     = (trace w
        ++ [Stat p false; Stat p false; Printed (warning_prefix ++ p);
            PlotterCall (set_background "white"); PlotterCall add_axes;
            PlotterCall (add_text ready_text)])%list.
Proof.
  intros p Hmiss. subst p. rewrite get_resource_path_value in *.
  pose proof (main_run w) as H. cbv zeta in H. rewrite Hmiss in H.
  rewrite H. cbn [fst snd app_windowIcon windowIcon visible qt plotter].
  repeat split.
  - intros app. pose proof (app_icon_block_run app w) as Ha. cbv zeta in Ha.
    now rewrite Hmiss in Ha.
  - intros q. pose proof (window_icon_block_run q w) as Hq. cbv zeta in Hq.
    now rewrite Hmiss in Hq.
Qed.

Lemma missing_icon_continues_with_one_warning_witness :
  path_exists source_process
    (fst (get_resource_path icon_relative_path source_process)) = false
  /\ (let w := source_process in
      let p := fst (get_resource_path icon_relative_path w) in
      app_windowIcon (fst (fst (main w))) = None
      /\ windowIcon (qt (snd (fst (main w)))) = None
      /\ visible (qt (snd (fst (main w)))) = true
      /\ plotter (snd (fst (main w)))
         = {| meshes := []; texts := [ready_text]; axes := true;
              background := Some "white"; camera := InitialView;
              closed := false |}
      /\ (forall app, app_icon_block app w = (app, logged w [Stat p false]))
      /\ (forall q, window_icon_block q w
                    = (q, logged w [Stat p false;
                                    Printed (warning_prefix ++ p)]))
      /\ trace (snd (main w))
         = (trace w
            ++ [Stat p false; Stat p false; Printed (warning_prefix ++ p);
                PlotterCall (set_background "white"); PlotterCall add_axes;
                PlotterCall (add_text ready_text)])%list).
Proof.
  split; [reflexivity|].
  apply (missing_icon_continues_with_one_warning source_process).
  reflexivity.
Defined.

(* ================================================================== *)
(** ** The two canvas actions *)
(* ================================================================== *)

(** The run of [plot_sphere]. *)
Lemma plot_sphere_run (self : MainWindow) (w : world) :
  plot_sphere self w =
  ({| qt := qt self; sidebar := sidebar self;
      plotter := {| meshes := [sphere_actor]; texts := [sphere_text];
                    axes := true;
                    background := background (plotter self);
                    camera := Framing [sphere_actor];
                    closed := closed (plotter self) |} |},
   logged w [PlotterCall clear; PlotterCall add_axes;
             PlotterCall (add_mesh sphere_actor);
             PlotterCall (add_text sphere_text);
             PlotterCall reset_camera; Printed "✅ 成功绘制球体"]).
Proof.
  unfold plot_sphere. run_handler.
Qed.

(** The run of [clear_plot]. *)
Lemma clear_plot_run (self : MainWindow) (w : world) :
  clear_plot self w =
  ({| qt := qt self; sidebar := sidebar self;
      plotter := {| meshes := []; texts := []; axes := true;
                    background := Some "white";
                    camera := camera (plotter self);
                    closed := closed (plotter self) |} |},
   logged w [PlotterCall clear; PlotterCall (set_background "white");
             PlotterCall add_axes; Printed "🧹 画布已清空"]).
Proof.
  unfold clear_plot. run_handler.
Qed.

(** The run of [closeEvent]. *)
Lemma closeEvent_run (self : MainWindow) (ev : QCloseEvent) (w : world) :
  closeEvent self ev w =
  (({| qt := qt self; sidebar := sidebar self;
       plotter := {| meshes := meshes (plotter self);
                     texts := texts (plotter self);
                     axes := axes (plotter self);
                     background := background (plotter self);
                     camera := camera (plotter self);
                     closed := true |} |},
    {| isAccepted := true |}),
   logged w [PlotterCall close; Accepted]).
Proof.
  unfold closeEvent. run_handler.
Qed.

Example sphere_after_startup :
  plotter (fst (plot_sphere (snd (fst (main source_process)))
                            (snd (main source_process))))
  = {| meshes := [sphere_actor]; texts := [sphere_text]; axes := true;
       background := Some "white"; camera := Framing [sphere_actor];
       closed := false |}.
Proof. reflexivity. Qed.

(** C3. [plot_sphere] is idempotent on the scene: from every window
    state, a second click right after the first leaves the window, with
    the meshes, axis indicator, status text, camera and background of its
    canvas, exactly as the first click left it; the second click makes
    the same calls as the first, starting with [clear], and the scene
    holds one sphere, not two. *)
Theorem plot_sphere_idempotent (self : MainWindow) (w : world) :
  let once := plot_sphere self w in
  let twice := plot_sphere (fst once) (snd once) in
  fst twice = fst once
  /\ plotter (fst twice) = plotter (fst once)
  /\ meshes (plotter (fst twice)) = [sphere_actor]
  /\ since (snd once) (snd twice) = since w (snd once)
  /\ hd_error (since (snd once) (snd twice)) = Some (PlotterCall clear).
Proof.
  cbv zeta. rewrite (plot_sphere_run self w). cbn [fst snd].
  rewrite plot_sphere_run. cbn [fst snd plotter meshes].
  rewrite !since_logged. repeat split.
Qed.

(** C4. [plot_sphere] takes no argument besides the window, always
    returns, and makes, in this order and nothing else, the calls
    [clear], [add_axes], [add_mesh] of one sphere of radius 0.5 in orange
    with opacity 0.8 (strictly between 0 and 1) and edges shown,
    [add_text] of the status line, [reset_camera]; afterwards the scene
    holds that one sphere, the new status text alone, and the camera
    frames the sphere. *)
Theorem plot_sphere_sequence (self : MainWindow) (w : world) :
  trace (snd (plot_sphere self w))
  = (trace w
     ++ [PlotterCall clear;
         PlotterCall add_axes;
         PlotterCall (add_mesh {| actor_mesh := Sphere 0.5;
                                  actor_color := "orange";
                                  actor_show_edges := true;
                                  actor_pbr := false;
                                  actor_opacity := 0.8 |});
         PlotterCall (add_text {| text_content := "Model: 3D Sphere";
                                  text_position := "upper_left";
                                  text_color := "black" |});
         PlotterCall reset_camera;
         Printed "✅ 成功绘制球体"])%list
  /\ (0 < actor_opacity sphere_actor < 1)%Q
  /\ meshes (plotter (fst (plot_sphere self w))) = [sphere_actor]
  /\ texts (plotter (fst (plot_sphere self w))) = [sphere_text]
  /\ axes (plotter (fst (plot_sphere self w))) = true
  /\ camera (plotter (fst (plot_sphere self w))) = Framing [sphere_actor].
Proof.
  rewrite plot_sphere_run. cbn [fst snd trace logged plotter meshes texts
    axes camera].
  repeat split.
Qed.

(** C5. After [clear_plot], from any window state and in particular right
    after [plot_sphere], the canvas holds no mesh, its background is
    white and the axis indicator is there; the handler calls [clear],
    [set_background("white")] and [add_axes], in this order. *)
Theorem clear_plot_empties_scene (self : MainWindow) (w : world) :
  let after_clear p := meshes p = [] /\ length (meshes p) = 0%nat
                       /\ background p = Some "white" /\ axes p = true in
  after_clear (plotter (fst (clear_plot self w)))
  /\ after_clear
       (plotter (fst (clear_plot (fst (plot_sphere self w))
                                 (snd (plot_sphere self w)))))
  /\ since w (snd (clear_plot self w))
     = [PlotterCall clear; PlotterCall (set_background "white");
        PlotterCall add_axes; Printed "🧹 画布已清空"].
Proof.
  cbv zeta. rewrite !clear_plot_run. cbn [fst snd plotter meshes background
    axes length].
  rewrite since_logged. repeat split.
Qed.

(* ================================================================== *)
(** ** Click sequences *)
(* ================================================================== *)

Example three_clicks :
  plotter (window_after [slot_plot_sphere; slot_plot_sphere; slot_clear_plot]
                        source_process)
  = {| meshes := []; texts := []; axes := true; background := Some "white";
       camera := Framing [sphere_actor]; closed := false |}.
Proof. reflexivity. Qed.

Example click_sphere_last :
  meshes (plotter (window_after [slot_clear_plot; slot_plot_sphere;
                                 slot_plot_sphere] source_process))
  = [sphere_actor].
Proof. reflexivity. Qed.

(** One click takes the scene to what that click shows, provided the
    background was white before. *)
Lemma run_slot_reflects (s : slot) (self : MainWindow) (w : world) :
  background (plotter self) = Some "white" ->
  reflects (Some s) (plotter (fst (run_slot s self w))).
Proof.
  intros Hbg. destruct s; cbn [run_slot].
  - rewrite plot_sphere_run. cbn. repeat split. exact Hbg.
  - rewrite clear_plot_run. cbn. repeat split.
Qed.

(** A sequence of clicks takes a scene that reflects some click to one
    that reflects the last click of the sequence. *)
Lemma run_clicks_reflects (clicks : list slot) :
  forall (previous : option slot) (self : MainWindow) (w : world),
    reflects previous (plotter self) ->
    reflects (last_click previous clicks)
             (plotter (fst (run_clicks clicks self w))).
Proof.
  induction clicks as [|c rest IH]; intros previous self w Hprev.
  - exact Hprev.
  - cbn [run_clicks last_click]. unfold bind.
    pose proof (run_slot_reflects c self w) as Hstep.
    destruct (run_slot c self w) as [self' w']. cbn [fst] in Hstep.
    apply IH, Hstep. apply Hprev.
Qed.

(** The window [MainWindow()] builds shows the placeholder. *)
Lemma MainWindow_init_reflects (w : world) :
  reflects None (plotter (fst (MainWindow_init w))).
Proof.
  unfold MainWindow_init, bind.
  destruct (window_icon_block _ w) as [q w'].
  rewrite init_ui_run. cbn. repeat split.
Qed.

Lemma reflects_in_phase (recent : option slot) (p : Plotter) :
  reflects recent p ->
  in_phase (match recent with
            | Some c => toggle Empty c
            | None => Empty
            end) p.
Proof.
  intros (_ & _ & H). destruct recent as [[|]|]; apply H.
Qed.

Lemma fold_toggle_last (clicks : list slot) :
  forall (ph : scene_phase) (previous : option slot),
    ph = match previous with Some c => toggle Empty c | None => Empty end ->
    fold_left toggle clicks ph
    = match last_click previous clicks with
      | Some c => toggle Empty c
      | None => Empty
      end.
Proof.
  induction clicks as [|c rest IH]; intros ph previous Hph.
  - exact Hph.
  - cbn [fold_left last_click]. apply IH. now destruct c.
Qed.

(** C6. From the window [MainWindow()] builds, after every sequence of
    clicks on the two buttons the scene is in the phase the two-state
    machine [Empty]/[ShowingSphere] reaches on the same clicks: it holds
    no mesh or exactly the one sphere; each further click moves it as the
    machine's transition says; and meshes, status text, axis indicator
    and background are those of the most recent click. *)
Theorem clicks_follow_two_state_machine (clicks : list slot) (w : world) :
  let p := plotter (window_after clicks w) in
  in_phase (fold_left toggle clicks Empty) p
  /\ (meshes p = [] \/ meshes p = [sphere_actor])
  /\ (forall (next : slot) (w' : world),
        in_phase (toggle (fold_left toggle clicks Empty) next)
                 (plotter (fst (run_slot next (window_after clicks w) w'))))
  /\ reflects (last_click None clicks) p.
Proof.
  cbv zeta.
  assert (Hrefl : reflects (last_click None clicks)
                           (plotter (window_after clicks w)))
    by (apply run_clicks_reflects, MainWindow_init_reflects).
  assert (Hphase : in_phase (fold_left toggle clicks Empty)
                            (plotter (window_after clicks w))).
  { rewrite (fold_toggle_last clicks Empty None eq_refl).
    now apply reflects_in_phase. }
  split; [exact Hphase|].
  split.
  { destruct (fold_left toggle clicks Empty); [left | right]; exact Hphase. }
  split; [|exact Hrefl].
  intros next w'.
  assert (Hbg : background (plotter (window_after clicks w)) = Some "white")
    by apply Hrefl.
  pose proof (run_slot_reflects next (window_after clicks w) w' Hbg) as Hnext.
  apply reflects_in_phase in Hnext. now destruct next.
Qed.

(* ================================================================== *)
(** ** Closing the window *)
(* ================================================================== *)

(** C7. On a close request, from every window state, [closeEvent]
    returns, releases the canvas by exactly one [close] call, and makes
    that call before it accepts the event. *)
Theorem closeEvent_releases_once_then_accepts
    (self : MainWindow) (ev : QCloseEvent) (w : world) :
  trace (snd (closeEvent self ev w))
  = (trace w ++ [PlotterCall close; Accepted])%list
  /\ count_close (trace (snd (closeEvent self ev w)))
     = S (count_close (trace w))
  /\ closed (plotter (fst (fst (closeEvent self ev w)))) = true
  /\ isAccepted (snd (fst (closeEvent self ev w))) = true.
Proof.
  rewrite closeEvent_run. cbn [fst snd trace logged plotter closed isAccepted].
  repeat split.
  induction (trace w) as [|e t IH]; [reflexivity|].
  destruct e as [| | | |c|]; cbn [app count_close]; try exact IH.
  destruct c; cbn [count_close]; try exact IH. now rewrite IH.
Qed.

(* ================================================================== *)
(** ** Background and status text *)
(* ================================================================== *)

(** C9. [plot_sphere] leaves the background as it was, whatever it was,
    and makes no [set_background] call; [clear_plot] and the construction
    of the window are what set it to white. *)
Theorem plot_sphere_keeps_background (self : MainWindow) (w : world) :
  background (plotter (fst (plot_sphere self w))) = background (plotter self)
  /\ sets_background (since w (snd (plot_sphere self w))) = false
  /\ background (plotter (fst (clear_plot self w))) = Some "white"
  /\ background (plotter (fst (MainWindow_init w))) = Some "white"
  /\ background QtInteractor = None.
Proof.
  rewrite plot_sphere_run, clear_plot_run.
  cbn [fst snd plotter background].
  split; [reflexivity|].
  split; [now rewrite since_logged|].
  split; [reflexivity|].
  split; [apply MainWindow_init_reflects | reflexivity].
Qed.

(** C10. After [clear_plot] the canvas shows no status text, from every
    window state, and the handler makes no [add_text] call; the freshly
    built window shows the placeholder "Ready for Data..." in the upper
    left, so clearing it changes the scene. *)
Theorem clear_plot_removes_status_text (self : MainWindow) (w w' : world) :
  texts (plotter (fst (clear_plot self w))) = []
  /\ adds_text (since w (snd (clear_plot self w))) = false
  /\ texts (plotter (fst (MainWindow_init w)))
     = [{| text_content := "Ready for Data..."; text_position := "upper_left";
           text_color := "black" |}]
  /\ plotter (fst (clear_plot (fst (MainWindow_init w)) w'))
     <> plotter (fst (MainWindow_init w)).
Proof.
  assert (Hinit : texts (plotter (fst (MainWindow_init w))) = [ready_text])
    by apply MainWindow_init_reflects.
  split; [rewrite clear_plot_run; reflexivity|].
  split; [rewrite clear_plot_run; cbn [snd]; now rewrite since_logged|].
  split; [exact Hinit|].
  intros Heq. apply (f_equal texts) in Heq.
  rewrite Hinit, clear_plot_run in Heq. discriminate Heq.
Qed.

(* ================================================================== *)
(** ** Further properties of path resolution *)
(* ================================================================== *)

Lemma startswith_app (c : ascii) (a b : string) :
  PyStr.startswith c a = true -> PyStr.startswith c (a ++ b) = true.
Proof. destruct a; [discriminate | intros H; exact H]. Qed.

Lemma startswith_truthy (c : ascii) (a : string) :
  PyStr.startswith c a = true -> PyStr.truthy a = true.
Proof. destruct a; [discriminate | reflexivity]. Qed.

(** Joining keeps an absolute first part absolute, and an absolute
    second part replaces the first. *)
Lemma isabs_join (a b : string) :
  posixpath.isabs a = true \/ posixpath.isabs b = true ->
  posixpath.isabs (posixpath.join a [b]) = true.
Proof.
  unfold posixpath.isabs, posixpath.join, posixpath.join_step. cbn [fold_left].
  intros H. destruct (PyStr.startswith posixpath.sep b) eqn:Hb; [exact Hb|].
  destruct H as [Ha|Hb']; [|congruence].
  destruct (negb (PyStr.truthy a) || PyStr.endswith posixpath.sep a);
    now apply startswith_app.
Qed.

Lemma initial_slashes_pos (path : string) :
  posixpath.isabs path = true ->
  exists n, posixpath.initial_slashes path = S n.
Proof.
  unfold posixpath.isabs, posixpath.initial_slashes.
  destruct path as [|a [|b [|c t]]]; cbn [PyStr.startswith]; intros H;
    try discriminate; rewrite H.
  - now exists 0%nat.
  - destruct (Ascii.eqb b posixpath.sep); eauto.
  - destruct (Ascii.eqb b posixpath.sep && negb (Ascii.eqb c posixpath.sep));
      eauto.
Qed.

Lemma isabs_normpath (path : string) :
  posixpath.isabs path = true ->
  posixpath.isabs (posixpath.normpath path) = true.
Proof.
  intros H. unfold posixpath.normpath.
  rewrite (startswith_truthy _ _ H). cbn [negb].
  destruct (initial_slashes_pos path H) as [n ->].
  cbn [PyStr.repeat_char append PyStr.truthy].
  unfold posixpath.isabs. cbn [PyStr.startswith]. apply Ascii.eqb_refl.
Qed.

Lemma isabs_abspath (cwd path : string) :
  posixpath.isabs cwd = true \/ posixpath.isabs path = true ->
  posixpath.isabs (posixpath.abspath cwd path) = true.
Proof.
  intros H. unfold posixpath.abspath.
  destruct (posixpath.isabs path) eqn:Hp; apply isabs_normpath; [exact Hp|].
  apply isabs_join. destruct H as [H|H]; [now left | discriminate].
Qed.

Lemma isabs_dirname (path : string) :
  posixpath.isabs path = true ->
  posixpath.isabs (posixpath.dirname path) = true.
Proof.
  unfold posixpath.isabs, posixpath.dirname.
  destruct path as [|x t]; [discriminate|]. cbn [PyStr.startswith]. intros Hx.
  cbn [PyStr.upto_last PyStr.contains]. rewrite Hx. cbn [orb PyStr.truthy andb].
  destruct (PyStr.all_are posixpath.sep (String x (PyStr.upto_last posixpath.sep t)))
    eqn:Hall; cbn [negb].
  - exact Hx.
  - cbn [PyStr.rstrip]. rewrite Hall. exact Hx.
Qed.

Lemma all_are_rstrip (c : ascii) (s : string) :
  PyStr.all_are c s = false -> PyStr.all_are c (PyStr.rstrip c s) = false.
Proof.
  induction s as [|x t IH]; [discriminate|].
  intros H. cbn [PyStr.rstrip]. rewrite H.
  cbn [PyStr.all_are] in *.
  destruct (Ascii.eqb x c); [|reflexivity].
  cbn [andb] in *. now apply IH.
Qed.

Lemma endswith_rstrip (c : ascii) (s : string) :
  PyStr.endswith c (PyStr.rstrip c s) = false.
Proof.
  induction s as [|x t IH]; [reflexivity|].
  cbn [PyStr.rstrip].
  destruct (PyStr.all_are c (String x t)) eqn:Hall; [reflexivity|].
  cbn [PyStr.endswith].
  destruct (PyStr.rstrip c t) as [|y r] eqn:Hr; [|exact IH].
  cbn [PyStr.all_are] in Hall.
  destruct (Ascii.eqb x c); [|reflexivity].
  cbn [andb] in Hall. apply all_are_rstrip in Hall.
  rewrite Hr in Hall. discriminate Hall.
Qed.

Lemma all_are_endswith (c : ascii) (s : string) :
  PyStr.all_are c s = true -> PyStr.truthy s = true ->
  PyStr.endswith c s = true.
Proof.
  induction s as [|x t IH]; [discriminate|].
  cbn [PyStr.all_are]. intros H _.
  apply andb_true_iff in H as [Hx Ht].
  destruct t as [|y r]; [exact Hx|].
  cbn [PyStr.endswith]. now apply IH.
Qed.

(** X1. An absolute argument is returned as it is, in either run mode:
    [os.path.join] drops the base directory. *)
Theorem get_resource_path_absolute_argument (w : world) (path : string) :
  posixpath.isabs path = true ->
  fst (get_resource_path path w) = path.
Proof.
  intros H. rewrite get_resource_path_value.
  unfold posixpath.join, posixpath.join_step. cbn [fold_left].
  unfold posixpath.isabs in H. now rewrite H.
Qed.

Lemma get_resource_path_absolute_argument_witness :
  posixpath.isabs "/etc/icon.ico" = true
  /\ fst (get_resource_path "/etc/icon.ico" bundle_process) = "/etc/icon.ico".
Proof.
  split; [reflexivity|].
  apply (get_resource_path_absolute_argument bundle_process "/etc/icon.ico").
  reflexivity.
Defined.

(** X2. In a process whose base directory is given absolutely, the path
    [get_resource_path] returns is absolute, whatever the argument. *)
Theorem get_resource_path_is_absolute (w : world) (path : string) :
  absolute_process w ->
  posixpath.isabs (fst (get_resource_path path w)) = true.
Proof.
  intros Habs. rewrite get_resource_path_value.
  apply isabs_join. left.
  unfold absolute_process in Habs. unfold base_dir.
  destruct (sys_MEIPASS w); [exact Habs|].
  now apply isabs_dirname, isabs_abspath.
Qed.

Lemma get_resource_path_is_absolute_witness :
  absolute_process source_process
  /\ posixpath.isabs
       (fst (get_resource_path icon_relative_path source_process)) = true.
Proof.
  split; [left; reflexivity|].
  apply (get_resource_path_is_absolute source_process icon_relative_path).
  left; reflexivity.
Defined.

(** X3. Run from source, the path for a relative argument is the script
    directory, one separator and the argument; only a script directory
    made of separators alone (the root) or empty gets no separator
    added. *)
Theorem get_resource_path_source_separator (w : world) (path : string) :
  sys_MEIPASS w = None ->
  posixpath.isabs path = false ->
  let script_dir :=
    posixpath.dirname (posixpath.abspath (getcwd w) (script_file w)) in
  fst (get_resource_path path w)
  = if PyStr.all_are posixpath.sep script_dir
    then script_dir ++ path
    else script_dir ++ "/" ++ path.
Proof.
  intros Hsrc Hrel script_dir. rewrite get_resource_path_value.
  unfold base_dir. rewrite Hsrc. fold script_dir.
  unfold posixpath.join, posixpath.join_step. cbn [fold_left].
  unfold posixpath.isabs in Hrel. rewrite Hrel.
  subst script_dir. unfold posixpath.dirname.
  set (head := PyStr.upto_last posixpath.sep
                 (posixpath.abspath (getcwd w) (script_file w))).
  destruct (PyStr.truthy head) eqn:Ht; destruct (PyStr.all_are posixpath.sep head) eqn:Ha;
    cbn [andb negb].
  - rewrite Ha, Ht, (all_are_endswith _ _ Ha Ht). reflexivity.
  - rewrite (all_are_rstrip _ _ Ha), endswith_rstrip.
    destruct (PyStr.rstrip posixpath.sep head) eqn:Hr; [|reflexivity].
    pose proof (all_are_rstrip _ _ Ha) as Hc. rewrite Hr in Hc. discriminate Hc.
  - rewrite Ha, Ht. reflexivity.
  - destruct head; discriminate.
Qed.

Lemma get_resource_path_source_separator_witness :
  sys_MEIPASS root_process = None
  /\ posixpath.isabs icon_relative_path = false
  /\ (let script_dir :=
        posixpath.dirname (posixpath.abspath (getcwd root_process)
                                             (script_file root_process)) in
      fst (get_resource_path icon_relative_path root_process)
      = if PyStr.all_are posixpath.sep script_dir
        then script_dir ++ icon_relative_path
        else script_dir ++ "/" ++ icon_relative_path).
Proof.
  split; [reflexivity|]. split; [reflexivity|].
  apply (get_resource_path_source_separator root_process icon_relative_path);
    reflexivity.
Defined.

Example icon_path_at_root :
  fst (get_resource_path icon_relative_path root_process)
  = "/resources/icon.ico".
Proof. reflexivity. Qed.

(* ================================================================== *)
(** ** Further properties of start-up *)
(* ================================================================== *)

(** X4. When the icon file exists, start-up sets the application icon
    and then the window icon, both from the resolved path, prints
    nothing, and only then initialises the canvas. *)
Theorem main_with_icon_sets_both (w : world) :
  let p := fst (get_resource_path icon_relative_path w) in
  path_exists w p = true ->
  app_windowIcon (fst (fst (main w))) = Some p
  /\ windowIcon (qt (snd (fst (main w)))) = Some p
  /\ count_printed (since w (snd (main w))) = 0%nat
  /\ since w (snd (main w))
     = [Stat p true; AppIconSet p; Stat p true; WindowIconSet p;
        PlotterCall (set_background "white"); PlotterCall add_axes;
        PlotterCall (add_text ready_text)].
Proof.
  intros p Hfound. subst p. rewrite get_resource_path_value in *.
  pose proof (main_run w) as H. cbv zeta in H. rewrite Hfound in H.
  rewrite H. cbn [fst snd app_windowIcon windowIcon qt].
  rewrite since_logged. repeat split.
Qed.

Lemma main_with_icon_sets_both_witness :
  path_exists source_process_with_icon
    (fst (get_resource_path icon_relative_path source_process_with_icon))
  = true
  /\ (let w := source_process_with_icon in
      let p := fst (get_resource_path icon_relative_path w) in
      app_windowIcon (fst (fst (main w))) = Some p
      /\ windowIcon (qt (snd (fst (main w)))) = Some p
      /\ count_printed (since w (snd (main w))) = 0%nat
      /\ since w (snd (main w))
         = [Stat p true; AppIconSet p; Stat p true; WindowIconSet p;
            PlotterCall (set_background "white"); PlotterCall add_axes;
            PlotterCall (add_text ready_text)]).
Proof.
  split; [reflexivity|].
  apply (main_with_icon_sets_both source_process_with_icon).
  reflexivity.
Defined.

(** X5. In every process, start-up leaves the application and the window
    with the same icon: both the resolved path when the file exists, both
    none when it does not; a warning is printed exactly when it does not,
    and it names the resolved path. *)
Theorem main_icons_agree (w : world) :
  let p := fst (get_resource_path icon_relative_path w) in
  let app := fst (fst (main w)) in
  let window := snd (fst (main w)) in
  app_windowIcon app = windowIcon (qt window)
  /\ windowIcon (qt window) = (if path_exists w p then Some p else None)
  /\ warned (since w (snd (main w))) = negb (path_exists w p)
  /\ count_printed (since w (snd (main w)))
     = (if path_exists w p then 0 else 1)%nat
  /\ (if path_exists w p then True
      else In (Printed (warning_prefix ++ p)) (since w (snd (main w)))).
Proof.
  cbv zeta. rewrite get_resource_path_value.
  pose proof (main_run w) as H. cbv zeta in H. rewrite H.
  cbn [fst snd app_windowIcon windowIcon qt]. rewrite since_logged.
  destruct (path_exists w _).
  - repeat split.
  - split; [reflexivity|]. split; [reflexivity|].
    split; [unfold warned; cbn [app existsb orb]; now rewrite prefix_app|].
    split; [reflexivity|].
    cbn [app In]. auto.
Qed.

(** X6. Apart from the icon, the window start-up builds is the same in
    every process: title, 1200 by 800, shown, the same sidebar and the
    same initial canvas; its sidebar has exactly two buttons, the first
    connected to [plot_sphere], the second to [clear_plot]. *)
Theorem main_window_is_fixed (w1 w2 : world) :
  let window1 := snd (fst (main w1)) in
  let window2 := snd (fst (main w2)) in
  windowTitle (qt window1)
  = "MCM Visualization Tool (Powered by PySide6 & PyVista)"
  /\ windowTitle (qt window1) = windowTitle (qt window2)
  /\ size (qt window1) = (1200, 800)%Z
  /\ visible (qt window1) = true
  /\ sidebar window1 = sidebar window2
  /\ plotter window1 = plotter window2
  /\ style (fst (fst (main w1))) = style (fst (fst (main w2)))
  /\ connected_slots (layout (sidebar window1))
     = [slot_plot_sphere; slot_clear_plot].
Proof.
  cbv zeta.
  pose proof (main_run w1) as H1. pose proof (main_run w2) as H2.
  cbv zeta in H1, H2. rewrite H1, H2.
  cbn [fst snd qt sidebar plotter windowTitle size visible style].
  repeat split.
Qed.

(* ================================================================== *)
(** ** Further properties of the canvas actions *)
(* ================================================================== *)

(** What a sequence of clicks logs: one printed line per click, five
    plotter calls per "draw sphere" and three per "clear canvas", and
    nothing but console and canvas events. *)
Lemma run_clicks_log (clicks : list slot) :
  forall (self : MainWindow) (w : world),
  exists events,
    snd (run_clicks clicks self w) = logged w events
    /\ count_printed events = length clicks
    /\ count_plotter_calls events
       = (5 * length (filter is_plot_sphere clicks)
          + 3 * length (filter is_clear_plot clicks))%nat
    /\ forallb canvas_event events = true.
Proof.
  induction clicks as [|c rest IH]; intros self w.
  - exists []. cbn. unfold logged. rewrite app_nil_r.
    destruct w; repeat split.
  - cbn [run_clicks]. unfold bind.
    assert (Hc : exists self' l,
               run_slot c self w = (self', logged w l)
               /\ count_printed l = 1%nat
               /\ count_plotter_calls l
                  = ((if is_plot_sphere c then 5 else 0)
                     + (if is_clear_plot c then 3 else 0))%nat
               /\ forallb canvas_event l = true).
    { destruct c; cbn [run_slot];
        [rewrite plot_sphere_run | rewrite clear_plot_run];
        eexists; eexists; repeat split. }
    destruct Hc as (self' & l & -> & Hp & Hn & Hcv).
    destruct (IH self' (logged w l)) as (events & -> & Hp' & Hn' & Hcv').
    exists (l ++ events)%list. rewrite logged_logged.
    split; [reflexivity|].
    assert (Happ_p : forall a b, count_printed (a ++ b)
                                 = (count_printed a + count_printed b)%nat).
    { induction a as [|e a IHa]; intros b; [reflexivity|].
      destruct e; cbn; now rewrite IHa. }
    assert (Happ_n : forall a b, count_plotter_calls (a ++ b)
                       = (count_plotter_calls a + count_plotter_calls b)%nat).
    { induction a as [|e a IHa]; intros b; [reflexivity|].
      destruct e; cbn; now rewrite IHa. }
    rewrite Happ_p, Happ_n, forallb_app, Hp, Hn, Hp', Hn', Hcv, Hcv'.
    cbn [length filter]. destruct c; cbn [is_plot_sphere is_clear_plot length];
      repeat split; lia.
Qed.

(** Clicks of a sequence are handled one after the other. *)
Lemma run_clicks_app (first second : list slot) :
  forall (self : MainWindow) (w : world),
    run_clicks (first ++ second) self w
    = run_clicks second (fst (run_clicks first self w))
                        (snd (run_clicks first self w)).
Proof.
  induction first as [|c rest IH]; intros self w; [reflexivity|].
  cbn [app run_clicks]. unfold bind.
  destruct (run_slot c self w) as [self' w']. apply IH.
Qed.

(** X7. Button clicks touch nothing but the canvas and the console:
    after any sequence of clicks on any window, the Qt window state and
    the sidebar are what they were, the canvas is not released, and the
    clicks caused no file-system query, no icon assignment, no [close]
    call and no event acceptance. *)
Theorem clicks_touch_only_canvas
    (clicks : list slot) (self : MainWindow) (w : world) :
  let after := run_clicks clicks self w in
  qt (fst after) = qt self
  /\ sidebar (fst after) = sidebar self
  /\ closed (plotter (fst after)) = closed (plotter self)
  /\ forallb canvas_event (since w (snd after)) = true
  /\ count_close (since w (snd after)) = 0%nat
  /\ stat_paths (since w (snd after)) = [].
Proof.
  cbv zeta.
  assert (Hframe : forall cs s w0,
            qt (fst (run_clicks cs s w0)) = qt s
            /\ sidebar (fst (run_clicks cs s w0)) = sidebar s
            /\ closed (plotter (fst (run_clicks cs s w0))) = closed (plotter s)).
  { induction cs as [|c rest IH]; intros s w0; [repeat split|].
    cbn [run_clicks]. unfold bind.
    assert (Hc : qt (fst (run_slot c s w0)) = qt s
                 /\ sidebar (fst (run_slot c s w0)) = sidebar s
                 /\ closed (plotter (fst (run_slot c s w0))) = closed (plotter s)).
    { destruct c; cbn [run_slot];
        [rewrite plot_sphere_run | rewrite clear_plot_run]; repeat split. }
    destruct (run_slot c s w0) as [s' w']. cbn [fst] in Hc.
    destruct Hc as (Hq & Hs & Hcl).
    destruct (IH s' w') as (Hq' & Hs' & Hcl').
    repeat split; congruence. }
  destruct (Hframe clicks self w) as (Hq & Hs & Hcl).
  destruct (run_clicks_log clicks self w) as (events & Hw & _ & _ & Hcv).
  rewrite Hw, since_logged.
  split; [exact Hq|]. split; [exact Hs|]. split; [exact Hcl|].
  split; [exact Hcv|].
  clear Hw. induction events as [|e events IH]; [split; reflexivity|].
  cbn [forallb] in Hcv. apply andb_true_iff in Hcv as [He Hrest].
  destruct (IH Hrest) as [IHc IHs].
  destruct e as [| | | |c|]; try discriminate He; cbn [count_close stat_paths];
    try (split; assumption).
  destruct c; try discriminate He; split; assumption.
Qed.

(** X8. Every click is answered by exactly one console line: a sequence
    of clicks prints as many lines as it has clicks, and makes five
    plotter calls for each "draw sphere" and three for each "clear
    canvas". *)
Theorem clicks_print_one_line_each
    (clicks : list slot) (self : MainWindow) (w : world) :
  let events := since w (snd (run_clicks clicks self w)) in
  count_printed events = length clicks
  /\ count_plotter_calls events
     = (5 * length (filter is_plot_sphere clicks)
        + 3 * length (filter is_clear_plot clicks))%nat
  /\ trace (snd (run_clicks clicks self w)) = (trace w ++ events)%list.
Proof.
  cbv zeta.
  destruct (run_clicks_log clicks self w) as (events & Hw & Hp & Hn & _).
  rewrite Hw, since_logged. repeat split; assumption.
Qed.

(** X9. How the two actions compose on the scene: "clear canvas" twice
    is "clear canvas" once; "clear canvas" leaves the camera where it
    was, so after "draw sphere" it still frames the sphere that is gone;
    "draw sphere" after "clear canvas" gives the sphere scene on a white
    background, whatever the state before. *)
Theorem clear_plot_composition (self : MainWindow) (w : world) :
  let cleared := clear_plot self w in
  let cleared_twice := clear_plot (fst cleared) (snd cleared) in
  let drawn := plot_sphere self w in
  let drawn_cleared := clear_plot (fst drawn) (snd drawn) in
  let cleared_drawn := plot_sphere (fst cleared) (snd cleared) in
  fst cleared_twice = fst cleared
  /\ camera (plotter (fst cleared)) = camera (plotter self)
  /\ camera (plotter (fst drawn_cleared)) = Framing [sphere_actor]
  /\ meshes (plotter (fst drawn_cleared)) = []
  /\ plotter (fst cleared_drawn)
     = {| meshes := [sphere_actor]; texts := [sphere_text]; axes := true;
          background := Some "white"; camera := Framing [sphere_actor];
          closed := closed (plotter self) |}.
Proof.
  cbv zeta. rewrite (clear_plot_run self w), (plot_sphere_run self w).
  cbn [fst snd]. rewrite !clear_plot_run, plot_sphere_run.
  cbn. repeat split.
Qed.

Lemma existsb_snoc {A : Type} (f : A -> bool) (l : list A) (a : A) :
  existsb f (l ++ [a]) = existsb f l || f a.
Proof. rewrite existsb_app. cbn. now rewrite orb_false_r. Qed.

(** X10. From any window, the background after a sequence of clicks is
    white if the sequence holds a "clear canvas" click, and otherwise
    what it was before. *)
Theorem clicks_background
    (clicks : list slot) (self : MainWindow) (w : world) :
  background (plotter (fst (run_clicks clicks self w)))
  = if existsb is_clear_plot clicks then Some "white"
    else background (plotter self).
Proof.
  revert self w. induction clicks as [|c rest IH] using rev_ind;
    intros self w; [reflexivity|].
  rewrite run_clicks_app, existsb_snoc. cbn [run_clicks]. unfold bind, ret.
  specialize (IH self w).
  destruct (run_clicks rest self w) as [s' w']. cbn [fst snd] in *.
  destruct c; cbn [run_slot is_clear_plot].
  - rewrite plot_sphere_run. cbn [fst plotter background].
    now rewrite orb_false_r.
  - rewrite clear_plot_run. cbn [fst plotter background].
    now rewrite orb_true_r.
Qed.

(** X11. From any window, the camera after a sequence of clicks frames
    the sphere if the sequence holds a "draw sphere" click, and
    otherwise is what it was before: a later "clear canvas" does not
    bring the earlier view back. *)
Theorem clicks_camera
    (clicks : list slot) (self : MainWindow) (w : world) :
  camera (plotter (fst (run_clicks clicks self w)))
  = if existsb is_plot_sphere clicks then Framing [sphere_actor]
    else camera (plotter self).
Proof.
  revert self w. induction clicks as [|c rest IH] using rev_ind;
    intros self w; [reflexivity|].
  rewrite run_clicks_app, existsb_snoc. cbn [run_clicks]. unfold bind, ret.
  specialize (IH self w).
  destruct (run_clicks rest self w) as [s' w']. cbn [fst snd] in *.
  destruct c; cbn [run_slot is_plot_sphere].
  - rewrite plot_sphere_run. cbn [fst plotter camera].
    now rewrite orb_true_r.
  - rewrite clear_plot_run. cbn [fst plotter camera].
    now rewrite orb_false_r.
Qed.

(** X12. From any window, whatever was clicked before, the last click of
    a sequence decides meshes, status text and axis indicator: one
    sphere with its status line after "draw sphere", nothing but the
    axes after "clear canvas". *)
Theorem last_click_decides_content
    (earlier : list slot) (last : slot) (self : MainWindow) (w : world) :
  let p := plotter (fst (run_clicks (earlier ++ [last]) self w)) in
  axes p = true
  /\ meshes p = (if is_plot_sphere last then [sphere_actor] else [])
  /\ texts p = (if is_plot_sphere last then [sphere_text] else [])
  /\ (length (meshes p) <= 1)%nat.
Proof.
  cbv zeta. rewrite run_clicks_app. cbn [run_clicks]. unfold bind, ret.
  destruct (run_clicks earlier self w) as [s' w']. cbn [fst snd].
  destruct last; cbn [run_slot is_plot_sphere];
    [rewrite plot_sphere_run | rewrite clear_plot_run];
    cbn; repeat split; lia.
Qed.

(** X13. [closeEvent] has no guard against a second request: handled
    twice, it calls [close] twice and accepts twice, while window and
    event end up as after the first time; and it accepts the event
    whether it arrived accepted or ignored, leaving the Qt window state
    and the sidebar alone. *)
Theorem closeEvent_twice
    (self : MainWindow) (ev : QCloseEvent) (w : world) :
  let once := closeEvent self ev w in
  let twice := closeEvent (fst (fst once)) (snd (fst once)) (snd once) in
  fst twice = fst once
  /\ since w (snd twice)
     = [PlotterCall close; Accepted; PlotterCall close; Accepted]
  /\ count_close (since w (snd twice)) = 2%nat
  /\ isAccepted (snd (fst once)) = true
  /\ qt (fst (fst once)) = qt self
  /\ sidebar (fst (fst once)) = sidebar self.
Proof.
  cbv zeta. rewrite (closeEvent_run self ev w). cbn [fst snd].
  rewrite closeEvent_run. cbn [fst snd qt sidebar plotter meshes texts axes
    background camera closed isAccepted].
  rewrite logged_logged, since_logged. repeat split.
Qed.

Example dark_window_stays_dark_under_sphere :
  background (plotter (fst (run_clicks [slot_plot_sphere; slot_plot_sphere]
                                       dark_window source_process)))
  = Some "black".
Proof. reflexivity. Qed.

Example dark_window_turns_white_on_clear :
  plotter (fst (run_clicks [slot_plot_sphere; slot_clear_plot]
                           dark_window source_process))
  = {| meshes := []; texts := []; axes := true; background := Some "white";
       camera := Framing [sphere_actor]; closed := false |}.
Proof. reflexivity. Qed.

Example five_clicks_five_lines :
  count_printed
    (trace (snd (run_clicks [slot_plot_sphere; slot_clear_plot;
                             slot_clear_plot; slot_plot_sphere;
                             slot_plot_sphere] dark_window source_process)))
  = 5%nat.
Proof. reflexivity. Qed.

(* ================================================================== *)
(** ** The base directory by run mode *)
(* ================================================================== *)

Lemma append_empty_r (s : string) : s ++ "" = s.
Proof. induction s as [|x s IH]; [reflexivity | cbn; now rewrite IH]. Qed.

Lemma append_assoc_string (a b c : string) : (a ++ b) ++ c = a ++ (b ++ c).
Proof. induction a as [|x a IH]; [reflexivity | cbn; now rewrite IH]. Qed.

Lemma path_of_app (a b : list string) :
  path_of (a ++ b) = path_of a ++ path_of b.
Proof.
  induction a as [|c a IH]; [reflexivity|].
  cbn [app path_of]. rewrite IH.
  cbn [append]. now rewrite append_assoc_string.
Qed.

(** What [plain] gives: the three unequalities and no separator. *)
Lemma plain_parts (c : string) :
  plain c = true ->
  String.eqb c "" = false /\ String.eqb c "." = false
  /\ String.eqb c ".." = false
  /\ existsb (fun x => Ascii.eqb x posixpath.sep) (list_ascii_of_string c)
     = false.
Proof.
  unfold plain. intros H.
  apply andb_true_iff in H as [H H4]. apply andb_true_iff in H as [H H3].
  apply andb_true_iff in H as [H1 H2].
  apply negb_true_iff in H1, H2, H3, H4. auto.
Qed.

Lemma plain_first (c : string) :
  plain c = true ->
  exists x t, c = String x t /\ Ascii.eqb x posixpath.sep = false.
Proof.
  intros H. destruct (plain_parts c H) as (H1 & _ & _ & H4).
  destruct c as [|x t]; [discriminate H1|].
  exists x, t. split; [reflexivity|].
  cbn [list_ascii_of_string existsb] in H4.
  now apply orb_false_iff in H4.
Qed.

Lemma forallb_plain_cons (c : string) (rest : list string) :
  forallb plain (c :: rest) = true ->
  plain c = true /\ forallb plain rest = true.
Proof. cbn [forallb]. intros H. now apply andb_true_iff in H. Qed.

Lemma forallb_plain_app (a b : list string) :
  forallb plain a = true -> forallb plain b = true ->
  forallb plain (a ++ b) = true.
Proof. intros Ha Hb. rewrite forallb_app. now rewrite Ha, Hb. Qed.

(** Splitting at separators cuts a path into its components. *)
Lemma split_component (c t : string) :
  existsb (fun x => Ascii.eqb x posixpath.sep) (list_ascii_of_string c) = false ->
  PyStr.split posixpath.sep (c ++ String posixpath.sep t)
  = c :: PyStr.split posixpath.sep t.
Proof.
  induction c as [|x c IH]; intros H.
  - cbn [append PyStr.split]. now rewrite Ascii.eqb_refl.
  - cbn [list_ascii_of_string existsb] in H.
    apply orb_false_iff in H as [Hx Hc].
    cbn [append PyStr.split]. rewrite Hx, (IH Hc). reflexivity.
Qed.

Lemma split_last_component (c : string) :
  existsb (fun x => Ascii.eqb x posixpath.sep) (list_ascii_of_string c) = false ->
  PyStr.split posixpath.sep c = [c].
Proof.
  induction c as [|x c IH]; intros H; [reflexivity|].
  cbn [list_ascii_of_string existsb] in H.
  apply orb_false_iff in H as [Hx Hc].
  cbn [PyStr.split]. rewrite Hx, (IH Hc). reflexivity.
Qed.

Lemma split_components (rest : list string) :
  forall c : string,
    forallb plain (c :: rest) = true ->
    PyStr.split posixpath.sep (c ++ path_of rest) = c :: rest.
Proof.
  induction rest as [|c2 rest IH]; intros c H;
    apply forallb_plain_cons in H as [Hc Hrest];
    destruct (plain_parts c Hc) as (_ & _ & _ & Hno).
  - cbn [path_of]. rewrite append_empty_r. now apply split_last_component.
  - cbn [path_of append]. change "/"%char with posixpath.sep.
    rewrite (split_component _ _ Hno), (IH c2 Hrest). reflexivity.
Qed.

(** [normpath] keeps every plain component. *)
Lemma norm_step_plain (slashes : nat) (comps acc : list string) :
  forallb plain comps = true ->
  fold_left (posixpath.norm_step slashes) comps acc = (rev comps ++ acc)%list.
Proof.
  revert acc. induction comps as [|c comps IH]; intros acc H; [reflexivity|].
  apply forallb_plain_cons in H as [Hc Hrest].
  destruct (plain_parts c Hc) as (H1 & H2 & H3 & _).
  cbn [fold_left rev]. rewrite <- app_assoc. cbn [app].
  rewrite <- (IH (c :: acc) Hrest). f_equal.
  unfold posixpath.norm_step, posixpath.dot, posixpath.dotdot.
  rewrite H1, H2, H3. reflexivity.
Qed.

Lemma join_with_path_of (rest : list string) :
  forall c : string,
    String posixpath.sep (PyStr.join_with posixpath.sep (c :: rest))
    = path_of (c :: rest).
Proof.
  induction rest as [|c2 rest IH]; intros c.
  - cbn [PyStr.join_with path_of append]. now rewrite append_empty_r.
  - change (PyStr.join_with posixpath.sep (c :: c2 :: rest))
      with (c ++ String posixpath.sep
                   (PyStr.join_with posixpath.sep (c2 :: rest))).
    rewrite IH. reflexivity.
Qed.

Lemma initial_slashes_path_of (c : string) (rest : list string) :
  plain c = true ->
  posixpath.initial_slashes (path_of (c :: rest)) = 1%nat.
Proof.
  intros Hc. destruct (plain_first c Hc) as (x & t & -> & Hx).
  cbn [path_of append]. unfold posixpath.initial_slashes.
  change "/"%char with posixpath.sep. rewrite Ascii.eqb_refl.
  destruct (t ++ path_of rest); rewrite Hx; reflexivity.
Qed.

(** A path of plain components is already normal. *)
Lemma normpath_path_of (c : string) (rest : list string) :
  forallb plain (c :: rest) = true ->
  posixpath.normpath (path_of (c :: rest)) = path_of (c :: rest).
Proof.
  intros H. pose proof (forallb_plain_cons _ _ H) as [Hc _].
  assert (Hsplit : PyStr.split posixpath.sep (path_of (c :: rest))
                   = "" :: c :: rest).
  { change (path_of (c :: rest))
      with (String posixpath.sep (c ++ path_of rest)).
    cbn [PyStr.split]. rewrite Ascii.eqb_refl.
    now rewrite (split_components rest c H). }
  assert (Hfold : fold_left (posixpath.norm_step 1) ("" :: c :: rest) []
                  = rev (c :: rest)).
  { change (fold_left (posixpath.norm_step 1) ("" :: c :: rest) [])
      with (fold_left (posixpath.norm_step 1) (c :: rest) []).
    now rewrite (norm_step_plain 1 (c :: rest) [] H), app_nil_r. }
  unfold posixpath.normpath. cbv zeta.
  rewrite (initial_slashes_path_of c rest Hc), Hsplit, Hfold, rev_involutive.
  change (PyStr.truthy (path_of (c :: rest))) with true.
  cbn [negb PyStr.repeat_char append PyStr.truthy].
  apply join_with_path_of.
Qed.

Lemma isabs_path_of (c : string) (rest : list string) :
  posixpath.isabs (path_of (c :: rest)) = true.
Proof. reflexivity. Qed.

Lemma abspath_path_of (cwd c : string) (rest : list string) :
  forallb plain (c :: rest) = true ->
  posixpath.abspath cwd (path_of (c :: rest)) = path_of (c :: rest).
Proof.
  intros H. unfold posixpath.abspath. rewrite isabs_path_of.
  now apply normpath_path_of.
Qed.

Lemma contains_app_sep (s t : string) :
  PyStr.contains posixpath.sep (s ++ String posixpath.sep t) = true.
Proof.
  induction s as [|x s IH]; cbn [append PyStr.contains].
  - now rewrite Ascii.eqb_refl.
  - rewrite IH. apply orb_true_r.
Qed.

Lemma upto_last_plain (c : string) :
  existsb (fun x => Ascii.eqb x posixpath.sep) (list_ascii_of_string c) = false ->
  PyStr.upto_last posixpath.sep c = "".
Proof.
  destruct c as [|x c]; [reflexivity|]. intros H.
  cbn [PyStr.upto_last].
  assert (Hc : PyStr.contains posixpath.sep (String x c) = false).
  { revert H. generalize (String x c). intros s.
    induction s as [|y s IH]; [reflexivity|].
    cbn [list_ascii_of_string existsb PyStr.contains]. intros H.
    apply orb_false_iff in H as [Hy Hs]. now rewrite Hy, (IH Hs). }
  now rewrite Hc.
Qed.

Lemma upto_last_app_sep (s name : string) :
  existsb (fun x => Ascii.eqb x posixpath.sep) (list_ascii_of_string name) = false ->
  PyStr.upto_last posixpath.sep (s ++ String posixpath.sep name)
  = s ++ String posixpath.sep "".
Proof.
  intros H. induction s as [|x s IH].
  - cbn [append PyStr.upto_last PyStr.contains].
    rewrite Ascii.eqb_refl. cbn [orb]. now rewrite (upto_last_plain name H).
  - cbn [append]. cbn [PyStr.upto_last].
    change (String x (s ++ String posixpath.sep name))
      with (String x s ++ String posixpath.sep name).
    rewrite contains_app_sep. cbn [append]. now rewrite IH.
Qed.

Lemma all_are_app_sep (s : string) :
  PyStr.all_are posixpath.sep (s ++ String posixpath.sep "")
  = PyStr.all_are posixpath.sep s.
Proof.
  induction s as [|x s IH]; cbn [append PyStr.all_are].
  - now rewrite Ascii.eqb_refl.
  - now rewrite IH.
Qed.

Lemma rstrip_app_sep (s : string) :
  PyStr.rstrip posixpath.sep (s ++ String posixpath.sep "")
  = PyStr.rstrip posixpath.sep s.
Proof.
  induction s as [|x s IH].
  - cbn [append PyStr.rstrip PyStr.all_are]. now rewrite Ascii.eqb_refl.
  - cbn [append]. cbn [PyStr.rstrip].
    change (String x (s ++ String posixpath.sep ""))
      with (String x s ++ String posixpath.sep "").
    rewrite all_are_app_sep. cbn [append]. now rewrite IH.
Qed.

Lemma rstrip_noop (s : string) :
  PyStr.endswith posixpath.sep s = false -> PyStr.rstrip posixpath.sep s = s.
Proof.
  induction s as [|x s IH]; [reflexivity|]. intros H.
  cbn [PyStr.rstrip].
  destruct (PyStr.all_are posixpath.sep (String x s)) eqn:Hall.
  - rewrite (all_are_endswith _ _ Hall eq_refl) in H. discriminate H.
  - f_equal. destruct s as [|y s]; [reflexivity|]. now apply IH.
Qed.

Lemma endswith_app (s t : string) :
  PyStr.truthy t = true ->
  PyStr.endswith posixpath.sep (s ++ t) = PyStr.endswith posixpath.sep t.
Proof.
  intros Ht. induction s as [|x s IH]; [reflexivity|].
  cbn [append]. rewrite <- IH.
  destruct (s ++ t) eqn:E; [|reflexivity].
  destruct s; [cbn in E; subst t|]; discriminate.
Qed.

Lemma endswith_plain (c : string) :
  existsb (fun x => Ascii.eqb x posixpath.sep) (list_ascii_of_string c) = false ->
  PyStr.endswith posixpath.sep c = false.
Proof.
  induction c as [|x c IH]; [reflexivity|].
  cbn [list_ascii_of_string existsb]. intros H.
  apply orb_false_iff in H as [Hx Hc].
  destruct c; [exact Hx | now apply IH].
Qed.

(** A path of plain components does not end in a separator. *)
Lemma endswith_path_of (rest : list string) :
  forall c : string,
    forallb plain (c :: rest) = true ->
    PyStr.endswith posixpath.sep (path_of (c :: rest)) = false.
Proof.
  induction rest as [|c2 rest IH]; intros c H;
    apply forallb_plain_cons in H as [Hc Hrest].
  - destruct (plain_parts c Hc) as (_ & _ & _ & Hno).
    destruct (plain_first c Hc) as (x & t & E & _).
    cbn [path_of]. rewrite append_empty_r.
    change ("/" ++ c) with (String posixpath.sep "" ++ c).
    rewrite endswith_app by (now rewrite E). now apply endswith_plain.
  - change (path_of (c :: c2 :: rest)) with (("/" ++ c) ++ path_of (c2 :: rest)).
    rewrite endswith_app by reflexivity. now apply IH.
Qed.

(** The directory of a script given by its components. *)
Lemma dirname_path_of (dirs : list string) (name : string) :
  forallb plain dirs = true -> plain name = true ->
  posixpath.dirname (path_of (dirs ++ [name])) = directory dirs.
Proof.
  intros Hdirs Hname.
  destruct (plain_parts name Hname) as (_ & _ & _ & Hno).
  rewrite path_of_app. cbn [path_of]. rewrite append_empty_r.
  change ("/" ++ name) with (String posixpath.sep name).
  unfold posixpath.dirname. rewrite (upto_last_app_sep _ _ Hno).
  rewrite all_are_app_sep, rstrip_app_sep.
  destruct dirs as [|d dirs].
  - reflexivity.
  - assert (Hall : PyStr.all_are posixpath.sep (path_of (d :: dirs)) = false).
    { pose proof (forallb_plain_cons _ _ Hdirs) as [Hd _].
      destruct (plain_first d Hd) as (x & t & -> & Hx).
      cbn [path_of append PyStr.all_are]. rewrite Hx.
      now rewrite andb_false_r. }
    rewrite Hall. cbn [PyStr.truthy path_of append andb negb directory].
    change (String "/" (d ++ path_of dirs)) with (path_of (d :: dirs)).
    apply rstrip_noop. now apply endswith_path_of.
Qed.

(** A relative script path joined onto the working directory. *)
Lemma join_cwd_script (dirs : list string) (c : string) (rest : list string) :
  forallb plain dirs = true -> forallb plain (c :: rest) = true ->
  posixpath.join (directory dirs) [PyStr.join_with "/" (c :: rest)]
  = path_of (dirs ++ c :: rest).
Proof.
  intros Hdirs Hrest.
  pose proof (forallb_plain_cons _ _ Hrest) as [Hc _].
  unfold posixpath.join, posixpath.join_step. cbn [fold_left].
  assert (Hstart : PyStr.startswith posixpath.sep
                     (PyStr.join_with "/" (c :: rest)) = false).
  { destruct (plain_first c Hc) as (x & t & -> & Hx).
    destruct rest; exact Hx. }
  rewrite Hstart. change "/"%char with posixpath.sep.
  destruct dirs as [|d dirs].
  - cbn [directory PyStr.truthy negb PyStr.endswith orb app].
    rewrite Ascii.eqb_refl. cbn [append]. apply join_with_path_of.
  - cbn [directory]. rewrite (endswith_path_of dirs d Hdirs).
    change (PyStr.truthy (path_of (d :: dirs))) with true.
    cbn [negb orb].
    now rewrite join_with_path_of, path_of_app.
Qed.

(** The separator test of [join] is the one of [joined_onto]. *)
Lemma join_test_last (base : string) :
  negb (PyStr.truthy base) || PyStr.endswith posixpath.sep base
  = Ascii.eqb (last (list_ascii_of_string base) posixpath.sep) posixpath.sep.
Proof.
  destruct base as [|x base]; [reflexivity|].
  cbn [PyStr.truthy negb orb]. revert x.
  induction base as [|y base IH]; intros x; [reflexivity|].
  change (PyStr.endswith posixpath.sep (String x (String y base)))
    with (PyStr.endswith posixpath.sep (String y base)).
  rewrite IH. reflexivity.
Qed.

Lemma join_joined_onto (base path : string) :
  posixpath.isabs path = false ->
  posixpath.join base [path] = joined_onto base path.
Proof.
  intros H. unfold posixpath.join, posixpath.join_step, joined_onto.
  cbn [fold_left]. unfold posixpath.isabs in H. rewrite H.
  change "/"%char with posixpath.sep. rewrite join_test_last. reflexivity.
Qed.

(** The resolver's base is the base of the run mode. *)
Lemma base_dir_base_of (w : world) (base : string) :
  base_of w base -> base_dir w = base.
Proof.
  intros H. unfold base_dir.
  destruct H as [meipass Hm | dirs name Hm Hdirs Hname Hfile
                | dirs subdirs name Hm Hdirs Hsub Hname Hcwd Hfile];
    rewrite Hm; [reflexivity | |].
  - rewrite Hfile.
    assert (Hall : forallb plain (dirs ++ [name]) = true)
      by (apply forallb_plain_app; [exact Hdirs | cbn; now rewrite Hname]).
    destruct (dirs ++ [name])%list as [|c rest] eqn:E;
      [destruct dirs; discriminate E|].
    rewrite (abspath_path_of _ c rest Hall), <- E.
    now apply dirname_path_of.
  - rewrite Hfile, Hcwd. unfold posixpath.abspath.
    assert (Hsn : forallb plain (subdirs ++ [name]) = true)
      by (apply forallb_plain_app; [exact Hsub | cbn; now rewrite Hname]).
    assert (Hall : forallb plain (dirs ++ subdirs ++ [name]) = true)
      by (apply forallb_plain_app; assumption).
    destruct (subdirs ++ [name])%list as [|c rest] eqn:E;
      [destruct subdirs; discriminate E|].
    assert (Hrel : posixpath.isabs (PyStr.join_with "/" (c :: rest)) = false).
    { pose proof (forallb_plain_cons _ _ Hsn) as [Hc _].
      destruct (plain_first c Hc) as (x & t & -> & Hx).
      destruct rest; exact Hx. }
    rewrite Hrel, (join_cwd_script dirs c rest Hdirs Hsn), <- E.
    rewrite <- E in Hall.
    destruct (dirs ++ subdirs ++ [name])%list as [|c' rest'] eqn:E';
      [destruct dirs; [rewrite E in E'|]; discriminate E'|].
    rewrite (normpath_path_of c' rest' Hall), <- E', app_assoc.
    apply dirname_path_of; [|exact Hname].
    now apply forallb_plain_app.
Qed.

(** C1. For a relative path, [get_resource_path] returns the path joined
    onto the base directory of the run mode: base, one separator unless
    the base is empty or ends in one, and the path.  The base is the
    extraction directory [sys._MEIPASS] when the packaging marker is
    present, and otherwise the directory that holds the entry script,
    whether [__file__] is the script's absolute path or its path relative
    to the working directory. *)
Theorem get_resource_path_rooted_at_base
    (w : world) (relative_path base : string) :
  posixpath.isabs relative_path = false ->
  base_of w base ->
  fst (get_resource_path relative_path w) = joined_onto base relative_path
  /\ prefix base (fst (get_resource_path relative_path w)) = true.
Proof.
  intros Hrel Hbase.
  rewrite get_resource_path_value, (base_dir_base_of w base Hbase).
  rewrite (join_joined_onto base relative_path Hrel).
  split; [reflexivity|].
  unfold joined_onto. destruct (Ascii.eqb _ _); apply prefix_app.
Qed.

Lemma get_resource_path_rooted_at_base_witness :
  (posixpath.isabs icon_relative_path = false
   /\ base_of bundle_process "/tmp/_MEI40282"
   /\ fst (get_resource_path icon_relative_path bundle_process)
      = joined_onto "/tmp/_MEI40282" icon_relative_path
   /\ prefix "/tmp/_MEI40282"
        (fst (get_resource_path icon_relative_path bundle_process)) = true)
  /\ (base_of source_process "/home/user/MCM-Tools"
      /\ fst (get_resource_path icon_relative_path source_process)
         = joined_onto "/home/user/MCM-Tools" icon_relative_path
      /\ prefix "/home/user/MCM-Tools"
           (fst (get_resource_path icon_relative_path source_process)) = true)
  /\ (base_of installed_process "/opt/mcm"
      /\ fst (get_resource_path icon_relative_path installed_process)
         = joined_onto "/opt/mcm" icon_relative_path
      /\ prefix "/opt/mcm"
           (fst (get_resource_path icon_relative_path installed_process)) = true).
Proof.
  assert (Hbundle : base_of bundle_process "/tmp/_MEI40282")
    by (apply base_packaged; reflexivity).
  assert (Hsource : base_of source_process "/home/user/MCM-Tools")
    by (apply (base_source_relative source_process
                 ["home"; "user"; "MCM-Tools"] [] "main.py"); reflexivity).
  assert (Hinstalled : base_of installed_process "/opt/mcm")
    by (apply (base_source_absolute installed_process ["opt"; "mcm"] "main.py");
        reflexivity).
  split; [split; [reflexivity|]; split; [exact Hbundle|] |
          split; (split; [assumption|])].
  - apply (get_resource_path_rooted_at_base bundle_process
             icon_relative_path "/tmp/_MEI40282"); [reflexivity | exact Hbundle].
  - apply (get_resource_path_rooted_at_base source_process
             icon_relative_path "/home/user/MCM-Tools");
      [reflexivity | exact Hsource].
  - apply (get_resource_path_rooted_at_base installed_process
             icon_relative_path "/opt/mcm"); [reflexivity | exact Hinstalled].
Defined.

Example joined_onto_icon :
  joined_onto "/home/user/MCM-Tools" icon_relative_path
  = "/home/user/MCM-Tools/resources/icon.ico"
  /\ joined_onto "/tmp/_MEI40282/" icon_relative_path
     = "/tmp/_MEI40282/resources/icon.ico"
  /\ joined_onto "/" icon_relative_path = "/resources/icon.ico".
Proof. repeat split. Qed.
